(** * The x-ui provisioning client of the VPN bot

    A shallow embedding of [src/services/xui_service.py] (class
    [XUIService]) together with the constants of [src/config.py] it reads.

    - Python [str] values are Rocq [string]s (byte strings; a non-ASCII
      literal is its UTF-8 encoding).  [str.lower] is modelled on the ASCII
      letters, which is all the substring tests of the source look at.
    - The JSON objects exchanged with the panel are records whose fields
      are [option]s: [None] is an absent key, and [d.get(k, default)] is
      [default_of].  A field that is present holds a value of the type the
      source itself writes there (text for [email], [subId], [tgId]).
    - The panel is an oracle: it answers a request knowing every request
      that was sent before.  The service threads its own flag
      [_authenticated] and the list of requests sent so far.
    - The values drawn from [uuid.uuid4()] and [secrets.token_urlsafe(12)]
      are an explicit argument of [create_user]. *)

From Stdlib Require Import String Ascii List ZArith Bool Lia DecimalString.
From Stdlib Require DecimalZ DecimalPos.
Import ListNotations.

Local Open Scope string_scope.
Local Open Scope Z_scope.

(** ** Python string operations used by the service *)

Module PyStr.

(** [c.lower()] on one ASCII character. *)
Definition lower_ascii (c : ascii) : ascii :=
  let n := nat_of_ascii c in
  if (Nat.leb 65 n && Nat.leb n 90)%bool then ascii_of_nat (n + 32) else c.

(** [s.lower()] *)
Fixpoint lower (s : string) : string :=
  match s with
  | EmptyString => EmptyString
  | String c s' => String (lower_ascii c) (lower s')
  end.

(** [s.startswith(p)] *)
Fixpoint startswith (s p : string) : bool :=
  match p, s with
  | EmptyString, _ => true
  | String _ _, EmptyString => false
  | String a p', String b s' => if Ascii.eqb a b then startswith s' p' else false
  end.

(** [p in s] *)
Fixpoint contains (p s : string) : bool :=
  if startswith s p then true
  else match s with
       | EmptyString => false
       | String _ s' => contains p s'
       end.

(** [s[n:]] *)
Fixpoint drop (n : nat) (s : string) : string :=
  match n, s with
  | O, _ => s
  | S _, EmptyString => EmptyString
  | S n', String _ s' => drop n' s'
  end.

(** [s.replace(p, "")] for a non-empty [p]: the occurrences of [p] are
    removed from left to right, without overlap.  [skip] counts the
    characters of a matched occurrence that are still to be dropped. *)
Fixpoint remove_from (skip : nat) (p s : string) : string :=
  match s with
  | EmptyString => EmptyString
  | String c s' =>
      match skip with
      | S k => remove_from k p s'
      | O => if startswith s p
             then remove_from (String.length p - 1) p s'
             else String c (remove_from O p s')
      end
  end.

Definition remove (p s : string) : string := remove_from O p s.

(** [s.split(sep)[0]] for a one-character [sep]: what precedes the first
    [sep], or all of [s] when there is none. *)
Fixpoint split_head (sep : ascii) (s : string) : string :=
  match s with
  | EmptyString => EmptyString
  | String c s' => if Ascii.eqb c sep then EmptyString
                   else String c (split_head sep s')
  end.

(** [sep in s] for a one-character [sep]. *)
Fixpoint has_char (sep : ascii) (s : string) : bool :=
  match s with
  | EmptyString => false
  | String c s' => if Ascii.eqb c sep then true else has_char sep s'
  end.

(** [s.rstrip(c)] *)
Fixpoint rstrip (c : ascii) (s : string) : string :=
  match s with
  | EmptyString => EmptyString
  | String a s' =>
      match rstrip c s' with
      | EmptyString => if Ascii.eqb a c then EmptyString else String a EmptyString
      | r => String a r
      end
  end.

(** [str(n)] for an integer. *)
Definition str (n : Z) : string := NilZero.string_of_int (Z.to_int n).

(** Truth value of a string: [bool(s)]. *)
Definition truthy (s : string) : bool :=
  match s with EmptyString => false | String _ _ => true end.

End PyStr.

(** [d.get(k, default)] on a field that may be absent. *)
Definition default_of {A : Type} (d : A) (o : option A) : A :=
  match o with Some x => x | None => d end.

(** ** Configuration ([src/config.py]) *)

Record Config : Type := mkConfig {
  XUI_URL : string;
  XUI_SUBSCRIPTION_HOST : string;
  XUI_SUBSCRIPTION_PORT : string;
  DEFAULT_PROTOCOL : string;
  DEFAULT_TOTAL_GB : Z;
  DEFAULT_INBOUND_ID : option Z
}.

(** ** [_get_subscription_url] *)

Section SubscriptionUrl.

Variable cfg : Config.

(** [self.base_url.replace("https://", "").replace("http://", "")] *)
Definition strip_schemes (base_url : string) : string :=
  PyStr.remove "http://" (PyStr.remove "https://" base_url).

(** The host computed in the branch taken when only
    [XUI_SUBSCRIPTION_PORT] is set. *)
Definition host_for_port_override (base_url : string) : string :=
  if PyStr.has_char ":" base_url then PyStr.split_head ":" base_url
  else if PyStr.has_char "/" base_url then PyStr.split_head "/" base_url
  else if PyStr.has_char ":" base_url then PyStr.split_head ":" base_url
  else base_url.

(** The host computed in the fallback branch. *)
Definition host_for_fallback (base_url : string) : string :=
  let host_port :=
    if PyStr.has_char "/" base_url then PyStr.split_head "/" base_url
    else base_url in
  if PyStr.has_char ":" host_port then PyStr.split_head ":" host_port
  else host_port.

Definition _get_subscription_url (sub_id : string) : string :=
  if PyStr.truthy (XUI_SUBSCRIPTION_HOST cfg) then
    "https://" ++ XUI_SUBSCRIPTION_HOST cfg ++ "/sub/" ++ sub_id
  else if PyStr.truthy (XUI_SUBSCRIPTION_PORT cfg) then
    let base_url := strip_schemes (XUI_URL cfg) in
    let host := host_for_port_override base_url in
    "https://" ++ host ++ ":" ++ XUI_SUBSCRIPTION_PORT cfg ++ "/sub/" ++ sub_id
  else
    let base_url := strip_schemes (XUI_URL cfg) in
    let host := host_for_fallback base_url in
    "https://" ++ host ++ ":2096/sub/" ++ sub_id.

End SubscriptionUrl.

(** ** Data exchanged with the panel *)

(** A client account as it appears in an inbound's settings and in the
    payload of [addClient]. *)
Record Client : Type := mkClient {
  id : option string;
  flow : option string;
  email : option string;
  limitIp : option Z;
  totalGB : option Z;
  expiryTime : option Z;
  enable : option bool;
  tgId : option string;
  subId : option string;
  comment : option string;
  reset : option Z;
  alterId : option Z
}.

(** The settings of an inbound, after [json.loads] when they arrive as
    text: the client list, or [SettingsUndecodable] when [json.loads]
    raises [JSONDecodeError]. *)
Inductive Settings : Type :=
| SettingsUndecodable
| SettingsClients (clients : list Client).

Record Inbound : Type := mkInbound {
  ib_id : option Z;
  ib_enable : bool;
  ib_protocol : option string;
  ib_settings : Settings
}.

(** What [response.json()] gives: [NotJson] raises [ValueError]; [JsonOther]
    is a JSON value that is not an object, on which [.get] raises
    [AttributeError]; [JsonObj] carries the truth value of ["success"],
    the key ["msg"] and the list under ["obj"] (empty when absent). *)
Inductive Body : Type :=
| NotJson
| JsonOther
| JsonObj (success : bool) (msg : option string) (obj : list Inbound).

Record Response : Type := mkResponse {
  status_code : Z;
  body : Body
}.

(** The exceptions of [requests] that [_login] tells apart.  [Timeout]
    includes [ConnectTimeout], which the first handler catches. *)
Inductive Exn : Type :=
| Timeout
| ConnectionError
| OtherException.

Inductive Outcome : Type :=
| Returned (r : Response)
| Raised (e : Exn).

Inductive Encoding : Type := AsJson | AsForm.

Inductive Request : Type :=
| POST_login (url : string) (enc : Encoding)
| GET_inbounds (url : string)
| POST_addClient (url : string) (inbound_id : option Z) (client : Client).

(** The panel answers a request from the requests received before it. *)
Definition Panel : Type := list Request -> Request -> Outcome.

(** The service object: its flag and the requests sent through its
    session, oldest first. *)
Record XUIService : Type := mkService {
  _authenticated : bool;
  sent : list Request
}.

(** The dictionary returned by [find_user_by_username]. *)
Record FoundUser : Type := mkFound {
  found_username : string;
  found_sub_id : string;
  found_uuid : option string;
  found_subscription_url : string;
  found_inbound_id : Z
}.

(** One entry of the list returned by [get_all_user_subscriptions]. *)
Record Subscription : Type := mkSubscription {
  s_email : string;
  s_subscription_url : string;
  s_device_name : string;
  s_sub_id : string
}.

(** What [create_user] returns: [None] or one of its four dictionaries. *)
Inductive CreateResult : Type :=
| ReturnsNone
| Dict_username_required
| Dict_too_many_devices
| Dict_username_exists (name : string) (subscription_url : string)
| Dict_success (uuid sub_id : string) (inbound_id : option Z)
               (subscription_url : string) (total_gb : Z).

(** The random values of one call of [create_user]. *)
Record Fresh : Type := mkFresh {
  user_uuid : string;
  fresh_sub_id : string
}.

(** ["Основное устройство"], the label of the first device. *)
Definition primary_device_label : string := "Основное устройство".

(** ** The service *)

Section Service.

Variable cfg : Config.
Variable panel : Panel.

Definition base : string := PyStr.rstrip "/" (XUI_URL cfg).

(** [self.session.post/get]: the panel answers and the request is
    recorded. *)
Definition send (r : Request) (s : XUIService) : Outcome * XUIService :=
  (panel (sent s) r, mkService (_authenticated s) (sent s ++ [r])).

Definition set_authenticated (s : XUIService) : XUIService :=
  mkService true (sent s).

Definition login_endpoints : list string :=
  ["/login"; "/xui/login"; "/api/login"; "/login/"].

(** The [for endpoint in login_endpoints] loop of [_login]. *)
Fixpoint login_loop (endpoints : list string) (s : XUIService)
  : bool * XUIService :=
  match endpoints with
  | [] => (false, s)
  | endpoint :: rest =>
      let login_url := base ++ endpoint in
      let '(o, s1) := send (POST_login login_url AsJson) s in
      match o with
      | Raised Timeout => login_loop rest s1
      | Raised ConnectionError => (false, s1)
      | Raised OtherException => login_loop rest s1
      | Returned response =>
          if status_code response =? 200 then
            match body response with
            | JsonObj true _ _ => (true, set_authenticated s1)
            | JsonObj false _ _ => login_loop rest s1
            | NotJson => (true, set_authenticated s1)
            | JsonOther => login_loop rest s1
            end
          else if status_code response =? 404 then login_loop rest s1
          else
            let '(o2, s2) := send (POST_login login_url AsForm) s1 in
            match o2 with
            | Raised Timeout => login_loop rest s2
            | Raised ConnectionError => (false, s2)
            | Raised OtherException => login_loop rest s2
            | Returned response2 =>
                if status_code response2 =? 200
                then (true, set_authenticated s2)
                else login_loop rest s2
            end
      end
  end.

Definition _login (s : XUIService) : bool * XUIService :=
  login_loop login_endpoints s.

Definition _ensure_authenticated (s : XUIService) : bool * XUIService :=
  if negb (_authenticated s) then _login s else (true, s).

Definition list_url : string := base ++ "/panel/api/inbounds/list".

(** The loop of [_get_existing_inbound]: the first enabled inbound, of
    the given protocol when one is given. *)
Fixpoint first_enabled (protocol : string) (inbounds : list Inbound)
  : option Inbound :=
  match inbounds with
  | [] => None
  | inbound :: rest =>
      if ib_enable inbound then
        let inbound_protocol := default_of "" (ib_protocol inbound) in
        if (PyStr.truthy protocol && String.eqb inbound_protocol protocol)%bool
        then Some inbound
        else if negb (PyStr.truthy protocol) then Some inbound
        else first_enabled protocol rest
      else first_enabled protocol rest
  end.

Definition _get_existing_inbound (protocol : string) (s : XUIService)
  : option Inbound * XUIService :=
  let '(ok, s1) := _ensure_authenticated s in
  if negb ok then (None, s1)
  else
    let '(o, s2) := send (GET_inbounds list_url) s1 in
    match o with
    | Raised _ => (None, s2)
    | Returned response =>
        if negb (status_code response =? 200) then (None, s2)
        else match body response with
             | NotJson | JsonOther => (None, s2)
             | JsonObj _ _ inbounds =>
                 match inbounds with
                 | [] => (None, s2)
                 | _ => (first_enabled protocol inbounds, s2)
                 end
             end
    end.

Definition id_is (inbound_id : Z) (inbound : Inbound) : bool :=
  match ib_id inbound with
  | Some i => i =? inbound_id
  | None => false
  end.

(** The loop of [get_inbound_clients]. *)
Fixpoint inbound_with_id (inbound_id : Z) (inbounds : list Inbound)
  : option Inbound :=
  match inbounds with
  | [] => None
  | inbound :: rest =>
      if id_is inbound_id inbound then Some inbound
      else inbound_with_id inbound_id rest
  end.

Definition get_inbound_clients (inbound_id : Z) (s : XUIService)
  : option Inbound * XUIService :=
  let '(ok, s1) := _ensure_authenticated s in
  if negb ok then (None, s1)
  else
    let '(o, s2) := send (GET_inbounds list_url) s1 in
    match o with
    | Raised _ => (None, s2)
    | Returned response =>
        if negb (status_code response =? 200) then (None, s2)
        else match body response with
             | NotJson | JsonOther => (None, s2)
             | JsonObj _ _ inbounds => (inbound_with_id inbound_id inbounds, s2)
             end
    end.

(** The loop of [find_user_by_username] over the clients. *)
Fixpoint scan_clients (username : string) (check_inbound_id : Z)
    (clients : list Client) : option FoundUser :=
  match clients with
  | [] => None
  | client :: rest =>
      let client_email := default_of "" (email client) in
      if String.eqb client_email username then
        let sub_id := default_of "" (subId client) in
        if PyStr.truthy sub_id then
          Some (mkFound username sub_id (id client)
                        (_get_subscription_url cfg sub_id) check_inbound_id)
        else scan_clients username check_inbound_id rest
      else scan_clients username check_inbound_id rest
  end.

Definition find_user_by_username (username : string) (inbound_id : option Z)
    (s : XUIService) : option FoundUser * XUIService :=
  let '(ok, s1) := _ensure_authenticated s in
  if negb ok then (None, s1)
  else
    let check_inbound_id :=
      match inbound_id with
      | Some i => Some i
      | None => DEFAULT_INBOUND_ID cfg
      end in
    match check_inbound_id with
    | None => (None, s1)
    | Some check_inbound_id =>
        if check_inbound_id =? 0 then (None, s1)
        else
          let '(inbound, s2) := get_inbound_clients check_inbound_id s1 in
          match inbound with
          | None => (None, s2)
          | Some inbound =>
              match ib_settings inbound with
              | SettingsUndecodable => (None, s2)
              | SettingsClients clients =>
                  (scan_clients username check_inbound_id clients, s2)
              end
          end
    end.

(** The device name shown for a client of the user. *)
Definition device_name_of (base_username : option string)
    (client_email : string) : string :=
  let device_name :=
    match base_username with
    | Some base_username =>
        if String.eqb client_email base_username then primary_device_label
        else if PyStr.startswith client_email (base_username ++ "_")
        then PyStr.drop (String.length base_username + 1) client_email
        else client_email
    | None => client_email
    end in
  if PyStr.truthy device_name then device_name else client_email.

(** The loop of [get_all_user_subscriptions]; [subscriptions] is the
    list built so far. *)
Fixpoint collect_subscriptions (telegram_user_id : Z)
    (base_username : option string) (clients : list Client)
    (subscriptions : list Subscription) : list Subscription :=
  match clients with
  | [] => subscriptions
  | client :: rest =>
      let client_tg_id := default_of "" (tgId client) in
      let client_email := default_of "" (email client) in
      if negb (String.eqb client_tg_id (PyStr.str telegram_user_id)) then
        collect_subscriptions telegram_user_id base_username rest subscriptions
      else
        let sub_id := default_of "" (subId client) in
        if negb (PyStr.truthy sub_id) then
          collect_subscriptions telegram_user_id base_username rest subscriptions
        else
          let subscription_url := _get_subscription_url cfg sub_id in
          collect_subscriptions telegram_user_id base_username rest
            (subscriptions ++
             [mkSubscription client_email subscription_url
                (device_name_of base_username client_email) sub_id])
  end.

(** [username if username else None] *)
Definition if_truthy (username : option string) : option string :=
  match username with
  | Some u => if PyStr.truthy u then Some u else None
  | None => None
  end.

Definition get_all_user_subscriptions (telegram_user_id : Z)
    (username : option string) (s : XUIService)
  : list Subscription * XUIService :=
  let '(ok, s1) := _ensure_authenticated s in
  if negb ok then ([], s1)
  else
    match DEFAULT_INBOUND_ID cfg with
    | None => ([], s1)
    | Some default_inbound_id =>
        if default_inbound_id =? 0 then ([], s1)
        else
          let '(inbound, s2) := get_inbound_clients default_inbound_id s1 in
          match inbound with
          | None => ([], s2)
          | Some inbound =>
              match ib_settings inbound with
              | SettingsUndecodable => ([], s2)
              | SettingsClients clients =>
                  let base_username := if_truthy username in
                  (collect_subscriptions telegram_user_id base_username
                     clients [], s2)
              end
          end
    end.

Definition get_user_subscription (telegram_user_id : Z)
    (username : option string) (s : XUIService)
  : option string * XUIService :=
  let '(all_subscriptions, s1) :=
    get_all_user_subscriptions telegram_user_id username s in
  match all_subscriptions with
  | first :: _ => (Some (s_subscription_url first), s1)
  | [] => (None, s1)
  end.

(** *** [create_user] *)

(** How the choice of the email key ends: a key to submit, or a
    dictionary returned at once. *)
Inductive Choice : Type :=
| Use_email (email : string)
| Return_early (r : CreateResult).

(** The [while True] loop over [counter].  [fuel] bounds the number of
    iterations of the model; [None] means that the loop did not finish
    within it. *)
Fixpoint probe_loop (fuel : nat) (username device_name : string)
    (counter : Z) (s : XUIService) : option Choice * XUIService :=
  match fuel with
  | O => (None, s)
  | S fuel' =>
      let new_email :=
        username ++ "_" ++ device_name ++ "_" ++ PyStr.str counter in
      let '(existing, s1) := find_user_by_username new_email None s in
      match existing with
      | None => (Some (Use_email new_email), s1)
      | Some _ =>
          let counter := counter + 1 in
          if counter >? 100
          then (Some (Return_early Dict_too_many_devices), s1)
          else probe_loop fuel' username device_name counter s1
      end
  end.

(** Iterations that the loop, started at [counter = 2], can make. *)
Definition probe_fuel : nat := 99.

(** "Determine email format". *)
Definition choose_email (username : string) (device_name : option string)
    (s : XUIService) : option Choice * XUIService :=
  match if_truthy device_name with
  | Some device_name =>
      let email := username ++ "_" ++ device_name in
      let '(existing_user, s1) := find_user_by_username email None s in
      match existing_user with
      | Some _ => probe_loop probe_fuel username device_name 2 s1
      | None => (Some (Use_email email), s1)
      end
  | None =>
      let email := username in
      let '(existing_user, s1) := find_user_by_username email None s in
      match existing_user with
      | Some existing_user =>
          (Some (Return_early
                   (Dict_username_exists email
                      (found_subscription_url existing_user))), s1)
      | None => (Some (Use_email email), s1)
      end
  end.

(** "Find existing inbound to add client to": [None] when the function
    gives up, otherwise the value of [inbound_id]. *)
Definition target_inbound (s : XUIService)
  : option (option Z) * XUIService :=
  match DEFAULT_INBOUND_ID cfg with
  | Some i => (Some (Some i), s)
  | None =>
      let '(existing_inbound, s1) :=
        _get_existing_inbound (DEFAULT_PROTOCOL cfg) s in
      match existing_inbound with
      | Some existing_inbound => (Some (ib_id existing_inbound), s1)
      | None => (None, s1)
      end
  end.

Definition client_data (rnd : Fresh) (telegram_user_id : Z)
    (email : string) : Client :=
  {| id := Some (user_uuid rnd);
     flow := Some "";
     email := Some email;
     limitIp := Some 0;
     totalGB := Some (DEFAULT_TOTAL_GB cfg);
     expiryTime := Some 0;
     enable := Some true;
     tgId := Some (PyStr.str telegram_user_id);
     subId := Some (fresh_sub_id rnd);
     comment := Some "";
     reset := Some 0;
     alterId := if String.eqb (DEFAULT_PROTOCOL cfg) "vmess"
                then Some 0 else None |}.

Definition add_client_url : string := base ++ "/panel/api/inbounds/addClient".

(** ["exist" in error_lower or "duplicate" in error_lower or
    "already" in error_lower] *)
Definition indicates_existing (error_msg : string) : bool :=
  let error_lower := PyStr.lower error_msg in
  (PyStr.contains "exist" error_lower
   || PyStr.contains "duplicate" error_lower
   || PyStr.contains "already" error_lower)%bool.

(** "Try to find existing user", then the [return None] that ends the
    function when none is found. *)
Definition recover_existing (username : string) (inbound_id : option Z)
    (s : XUIService) : CreateResult * XUIService :=
  let '(existing_user, s1) := find_user_by_username username inbound_id s in
  match existing_user with
  | Some existing_user =>
      (Dict_username_exists username (found_subscription_url existing_user), s1)
  | None => (ReturnsNone, s1)
  end.

(** The [addClient] request and the treatment of its response. *)
Definition submit (rnd : Fresh) (telegram_user_id : Z)
    (username email : string) (inbound_id : option Z) (s : XUIService)
  : CreateResult * XUIService :=
  let '(o, s1) :=
    send (POST_addClient add_client_url inbound_id
            (client_data rnd telegram_user_id email)) s in
  match o with
  | Raised _ => (ReturnsNone, s1)
  | Returned response =>
      if status_code response =? 200 then
        match body response with
        | NotJson => (ReturnsNone, s1)
        | JsonOther => (ReturnsNone, s1)
        | JsonObj true _ _ =>
            (Dict_success (user_uuid rnd) (fresh_sub_id rnd) inbound_id
               (_get_subscription_url cfg (fresh_sub_id rnd))
               (DEFAULT_TOTAL_GB cfg), s1)
        | JsonObj false msg _ =>
            let error_msg := default_of "Unknown error" msg in
            if indicates_existing error_msg
            then recover_existing username inbound_id s1
            else (ReturnsNone, s1)
        end
      else
        match body response with
        | NotJson => (ReturnsNone, s1)
        | JsonOther => (ReturnsNone, s1)
        | JsonObj _ msg _ =>
            let error_msg := default_of "" msg in
            if indicates_existing error_msg
            then recover_existing username inbound_id s1
            else (ReturnsNone, s1)
        end
  end.

(** [create_user]; the result is [None] only when [probe_loop] ran out
    of fuel, which [create_user_returns] excludes. *)
Definition create_user (rnd : Fresh) (telegram_user_id : Z)
    (username device_name : option string) (s : XUIService)
  : option CreateResult * XUIService :=
  match if_truthy username with
  | None => (Some Dict_username_required, s)
  | Some username =>
      let '(ok, s1) := _ensure_authenticated s in
      if negb ok then (Some ReturnsNone, s1)
      else
        let '(chosen, s2) := choose_email username device_name s1 in
        match chosen with
        | None => (None, s2)
        | Some (Return_early r) => (Some r, s2)
        | Some (Use_email email) =>
            let '(target, s3) := target_inbound s2 in
            match target with
            | None => (Some ReturnsNone, s3)
            | Some inbound_id =>
                let '(r, s4) :=
                  submit rnd telegram_user_id username email inbound_id s3 in
                (Some r, s4)
            end
        end
  end.

End Service.

(** ** Panels used in the examples *)

(** A panel that answers the [n]-th request it receives with the [n]-th
    outcome of a script, and refuses connections afterwards. *)
Definition scripted (script : list Outcome) : Panel :=
  fun history _ => nth (List.length history) script (Raised ConnectionError).

Definition ok_body (inbounds : list Inbound) : Body := JsonObj true None inbounds.

(** A panel that accepts every login and always lists the same inbounds;
    it answers [addClient] with [on_add]. *)
Definition fixed_panel (inbounds : list Inbound) (on_add : Outcome) : Panel :=
  fun _ r =>
    match r with
    | POST_login _ _ => Returned (mkResponse 200 (ok_body []))
    | GET_inbounds _ => Returned (mkResponse 200 (ok_body inbounds))
    | POST_addClient _ _ _ => on_add
    end.

(** A panel that stores the clients it is sent: [addClient] appends the
    client to the inbound with the given id. *)
Definition add_to (inbound_id : option Z) (client : Client) (inbound : Inbound)
  : Inbound :=
  match inbound_id, ib_id inbound, ib_settings inbound with
  | Some i, Some j, SettingsClients clients =>
      if i =? j
      then mkInbound (ib_id inbound) (ib_enable inbound) (ib_protocol inbound)
             (SettingsClients (clients ++ [client]))
      else inbound
  | _, _, _ => inbound
  end.

Definition stored (inbounds : list Inbound) (history : list Request)
  : list Inbound :=
  fold_left
    (fun st r =>
       match r with
       | POST_addClient _ inbound_id client => map (add_to inbound_id client) st
       | _ => st
       end)
    history inbounds.

Definition storing_panel (inbounds : list Inbound) : Panel :=
  fun history r =>
    match r with
    | POST_login _ _ => Returned (mkResponse 200 (ok_body []))
    | GET_inbounds _ => Returned (mkResponse 200 (ok_body (stored inbounds history)))
    | POST_addClient _ _ _ => Returned (mkResponse 200 (ok_body []))
    end.

(** A panel that stores the clients it is sent unless their email is
    already listed, in which case it answers with an error message. *)
Definition email_listed (e : string) (inbounds : list Inbound) : bool :=
  existsb
    (fun inbound =>
       match ib_settings inbound with
       | SettingsClients clients =>
           existsb (fun c => String.eqb (default_of "" (email c)) e) clients
       | SettingsUndecodable => false
       end)
    inbounds.

Definition stored_once (inbounds : list Inbound) (history : list Request)
  : list Inbound :=
  fold_left
    (fun st r =>
       match r with
       | POST_addClient _ inbound_id client =>
           if email_listed (default_of "" (email client)) st then st
           else map (add_to inbound_id client) st
       | _ => st
       end)
    history inbounds.

Definition vetoing_panel (inbounds : list Inbound) : Panel :=
  fun history r =>
    match r with
    | POST_login _ _ => Returned (mkResponse 200 (ok_body []))
    | GET_inbounds _ =>
        Returned (mkResponse 200 (ok_body (stored_once inbounds history)))
    | POST_addClient _ _ client =>
        let e := default_of "" (email client) in
        if email_listed e (stored_once inbounds history)
        then Returned (mkResponse 200
                         (JsonObj false (Some ("Duplicate email: " ++ e)) []))
        else Returned (mkResponse 200 (ok_body []))
    end.

(** A client as the panel lists it, with only the keys the service reads. *)
Definition account (client_email sub_id tg_id : string) : Client :=
  mkClient None None (Some client_email) None None None None
           (Some tg_id) (Some sub_id) None None None.

Definition logged_in : XUIService := mkService true [].
Definition logged_out : XUIService := mkService false [].

(** ** Requests of the service *)

(** The two login requests for a candidate path, and the listing request. *)
Definition try_json (cfg : Config) (endpoint : string) : Request :=
  POST_login (base cfg ++ endpoint) AsJson.

Definition try_form (cfg : Config) (endpoint : string) : Request :=
  POST_login (base cfg ++ endpoint) AsForm.

Definition listing (cfg : Config) : Request := GET_inbounds (list_url cfg).

(** ** Looking accounts up *)

(** The inbounds that the service reads out of an answer to the listing
    request: the answer must have status 200 and a JSON object as body. *)
Definition listed (o : Outcome) : option (list Inbound) :=
  match o with
  | Returned r =>
      if status_code r =? 200 then
        match body r with
        | JsonObj _ _ inbounds => Some inbounds
        | _ => None
        end
      else None
  | Raised _ => None
  end.

(** The client list of the inbound with a given id. *)
Definition clients_of (i : Z) (inbounds : list Inbound) : option (list Client) :=
  match inbound_with_id i inbounds with
  | Some inbound =>
      match ib_settings inbound with
      | SettingsClients clients => Some clients
      | SettingsUndecodable => None
      end
  | None => None
  end.

(** The inbound that a lookup reads. *)
Definition check_id (cfg : Config) (inbound_id : option Z) : option Z :=
  match inbound_id with
  | Some i => Some i
  | None => DEFAULT_INBOUND_ID cfg
  end.

Definition email_is (username : string) (c : Client) : bool :=
  String.eqb (default_of "" (email c)) username.

Definition has_sub_id (c : Client) : bool :=
  PyStr.truthy (default_of "" (subId c)).

(** A client that a lookup by email can return. *)
Definition usable (username : string) (c : Client) : bool :=
  (email_is username c && has_sub_id c)%bool.

Definition found_of (cfg : Config) (username : string) (i : Z) (c : Client)
  : FoundUser :=
  mkFound username (default_of "" (subId c)) (id c)
          (_get_subscription_url cfg (default_of "" (subId c))) i.

(** C6 as the specification words it: a record whose email equals the
    query is returned whenever the fetched client list has one, and
    nothing is returned when it has none. *)
Definition finds_every_email_match (cfg : Config) (panel : Panel)
    (username : string) (inbound_id : option Z) (clients : list Client)
    (s : XUIService) : Prop :=
  let r := fst (find_user_by_username cfg panel username inbound_id s) in
  ((exists c, In c clients /\ email_is username c = true) ->
   exists f, r = Some f /\ found_username f = username) /\
  ((forall c, In c clients -> email_is username c = false) -> r = None).

(** ** Listing the subscriptions of an owner *)

(** A client kept by [get_all_user_subscriptions]: its owner tag is the
    text of the queried id and its [subId] is not empty. *)
Definition owned_with_sub_id (telegram_user_id : Z) (c : Client) : bool :=
  (String.eqb (default_of "" (tgId c)) (PyStr.str telegram_user_id)
   && has_sub_id c)%bool.

(** The device label as C4 words it. *)
Definition device_label_claimed (base_username : option string)
    (client_email : string) : string :=
  match base_username with
  | Some b =>
      if String.eqb client_email b then primary_device_label
      else if PyStr.startswith client_email (b ++ "_")
      then PyStr.drop (String.length b + 1) client_email
      else client_email
  | None => client_email
  end.

(** The device label with the remainder used only when it is not empty. *)
Definition device_label (base_username : option string)
    (client_email : string) : string :=
  match base_username with
  | Some b =>
      if String.eqb client_email b then primary_device_label
      else if PyStr.startswith client_email (b ++ "_")
      then let rest := PyStr.drop (String.length b + 1) client_email in
           if PyStr.truthy rest then rest else client_email
      else client_email
  | None => client_email
  end.

Definition subscription_of (cfg : Config) (label : string -> string)
    (c : Client) : Subscription :=
  let client_email := default_of "" (email c) in
  let sub_id := default_of "" (subId c) in
  mkSubscription client_email (_get_subscription_url cfg sub_id)
                 (label client_email) sub_id.

(** The result of [get_all_user_subscriptions] is the kept clients, in the
    order of the client list, each with the label [label] gives it. *)
Definition lists_owned_clients
    (label : option string -> string -> string)
    (cfg : Config) (panel : Panel) (telegram_user_id : Z)
    (username : option string) (clients : list Client) (s : XUIService)
  : Prop :=
  fst (get_all_user_subscriptions cfg panel telegram_user_id username s) =
  map (subscription_of cfg (label (if_truthy username)))
      (filter (owned_with_sub_id telegram_user_id) clients).

(** ** Creating accounts *)

(** The key probed at [counter]. *)
Definition device_key (username device_name : string) (counter : Z) : string :=
  username ++ "_" ++ device_name ++ "_" ++ PyStr.str counter.

(** A key is taken when the client list that the lookups read has a usable
    client under it. *)
Definition taken (clients : list Client) (key : string) : bool :=
  existsb (usable key) clients.

(** The panel lists the same inbounds whenever it is asked. *)
Definition always_lists (cfg : Config) (panel : Panel)
    (inbounds : list Inbound) : Prop :=
  forall history,
    listed (panel history (GET_inbounds (list_url cfg))) = Some inbounds.

(** The service after [n] more listing requests. *)
Definition after_listings (cfg : Config) (n : nat) (s : XUIService)
  : XUIService :=
  mkService true (sent s ++ repeat (GET_inbounds (list_url cfg)) n)%list.

(** Whatever the panel lists, it has no enabled inbound of the protocol. *)
Definition no_target (cfg : Config) (panel : Panel) : Prop :=
  forall history,
    match listed (panel history (GET_inbounds (list_url cfg))) with
    | Some inbounds => first_enabled (DEFAULT_PROTOCOL cfg) inbounds = None
    | None => True
    end.

(** A returned dictionary carries a tag; [None] carries none. *)
Definition tagged (r : CreateResult) : bool :=
  match r with
  | ReturnsNone => false
  | _ => true
  end.

(** The number of [addClient] requests that the service has sent. *)
Definition is_add (q : Request) : bool :=
  match q with
  | POST_addClient _ _ _ => true
  | _ => false
  end.

Definition submissions (s : XUIService) : nat :=
  List.length (filter is_add (sent s)).

(** C7 as the specification words it: the first call creates the account
    and the second call, for the same identity and no device, submits
    nothing and answers that the username exists, with the URL of the
    first call. *)
Definition second_call_finds_first (cfg : Config) (panel : Panel)
    (rnd rnd2 : Fresh) (telegram_user_id : Z) (username : string)
    (s : XUIService) : Prop :=
  exists uuid sub_id inbound_id url total_gb s1 s2,
    create_user cfg panel rnd telegram_user_id (Some username) None s =
    (Some (Dict_success uuid sub_id inbound_id url total_gb), s1) /\
    create_user cfg panel rnd2 telegram_user_id (Some username) None s1 =
    (Some (Dict_username_exists username url), s2) /\
    submissions s2 = submissions s1.

(** C5 as the specification words it: the result carries a tag. *)
Definition returns_tagged (cfg : Config) (panel : Panel) (rnd : Fresh)
    (telegram_user_id : Z) (username device_name : option string)
    (s : XUIService) : Prop :=
  exists r,
    fst (create_user cfg panel rnd telegram_user_id username device_name s)
    = Some r /\ tagged r = true.

(** ** The subscription URL against the wording of the specification *)

(** The host "parsed out of the admin base URL": the scheme, any path and
    any explicit port are stripped. *)
Definition parsed_host (base_url : string) : string :=
  PyStr.split_head ":" (PyStr.split_head "/" (strip_schemes base_url)).

(** The URL as C3 words it. *)
Definition subscription_url_claimed (cfg : Config) (sub_id : string) : string :=
  if PyStr.truthy (XUI_SUBSCRIPTION_HOST cfg) then
    "https://" ++ XUI_SUBSCRIPTION_HOST cfg ++ "/sub/" ++ sub_id
  else if PyStr.truthy (XUI_SUBSCRIPTION_PORT cfg) then
    "https://" ++ parsed_host (XUI_URL cfg) ++ ":"
               ++ XUI_SUBSCRIPTION_PORT cfg ++ "/sub/" ++ sub_id
  else
    "https://" ++ parsed_host (XUI_URL cfg) ++ ":2096/sub/" ++ sub_id.

(** No ["/"] comes before the first [":"] of the text. *)
Definition colon_before_slash (base_url : string) : bool :=
  negb (PyStr.has_char "/" (PyStr.split_head ":" base_url)).

(** ** Configurations, panels and accounts of the examples *)

Definition panel_url : string := "https://panel.example.com:54321/admin".

(** No inbound id configured: the setting of [config.py] when the
    environment does not define [DEFAULT_INBOUND_ID]. *)
Definition cfg_no_inbound : Config := mkConfig panel_url "" "" "vmess" 100 None.

Definition cfg_inbound1 : Config := mkConfig panel_url "" "" "vmess" 100 (Some 1).

(** A path with a colon, and only the subscription port configured. *)
Definition cfg_colon_in_path : Config :=
  mkConfig "https://panel.example.com/a:b" "" "2096" "vmess" 100 None.

Definition cfg_colon_in_path_fallback : Config :=
  mkConfig "https://panel.example.com/a:b" "" "" "vmess" 100 None.

Definition rnd1 : Fresh :=
  mkFresh "6f1c2a54-8f0e-4a57-9d3b-0c1e5b7a9d21" "Ab12_-xyzQ0w9LkT".
Definition rnd2 : Fresh :=
  mkFresh "b7e4d3c2-1a09-4f8e-8d7c-6b5a4f3e2d1c" "Zz98_-abcR1v8MnU".

Definition accepted : Outcome := Returned (mkResponse 200 (ok_body [])).
Definition refused_duplicate : Outcome :=
  Returned (mkResponse 200 (JsonObj false (Some "Duplicate email: alice_phone") [])).

Definition vmess_inbound (clients : list Client) : Inbound :=
  mkInbound (Some 1) true (Some "vmess") (SettingsClients clients).

(** [alice_phone], [alice_phone_2], ..., [alice_phone_100]. *)
Definition alice_phones : list Client :=
  account "alice_phone" "sub1" "7"
  :: map (fun n => account (device_key "alice" "phone" (Z.of_nat n))
                           ("sub" ++ PyStr.str (Z.of_nat n)) "7")
         (seq 2 99).

Definition alice_two : list Client :=
  [account "alice" "s0" "7"; account "alice_phone" "s1" "7"].

(** A client whose record has no [subId]. *)
Definition bob_without_sub_id : Client :=
  mkClient (Some "1d0c") None (Some "bob") None None None None
           (Some "8") None None None None.

Definition mixed_clients : list Client :=
  [account "alice" "s0" "7"; account "bob" "s5" "8";
   account "alice_phone" "s1" "7"; bob_without_sub_id;
   mkClient None None (Some "alice_tablet") None None None None
            (Some "7") None None None None;
   account "carol_pc" "s7" "7"; account "alice_" "s9" "7"].

Definition no_usable_inbounds : list Inbound :=
  [mkInbound (Some 1) false (Some "vmess") (SettingsClients []);
   mkInbound (Some 2) true (Some "trojan") (SettingsClients [])].

Definition three_answers : list Outcome :=
  [Returned (mkResponse 404 NotJson);
   Returned (mkResponse 404 NotJson);
   Returned (mkResponse 200 (ok_body []))].

(** The 101st device of C2. *)
Definition rejects_101st_device (cfg : Config) (panel : Panel) : Prop :=
  fst (create_user cfg panel rnd1 7 (Some "alice") (Some "phone") logged_in)
  = Some Dict_too_many_devices.

(** ** Further notions used in the properties *)

Definition is_login (q : Request) : bool :=
  match q with
  | POST_login _ _ => true
  | _ => false
  end.

Definition is_listing (q : Request) : bool :=
  match q with
  | GET_inbounds _ => true
  | _ => false
  end.

(** A login request to one of the given candidate paths. *)
Definition login_request_to (cfg : Config) (endpoints : list string)
    (q : Request) : Prop :=
  exists endpoint enc,
    In endpoint endpoints /\ q = POST_login (base cfg ++ endpoint) enc.

(** A status 500 for the JSON request, then a 200 for the form request
    whose body reports a failure. *)
Definition server_error_then_refusal : list Outcome :=
  [Returned (mkResponse 500 NotJson);
   Returned (mkResponse 200 (JsonObj false (Some "wrong password") []))].


(** An inbound that [_get_existing_inbound] accepts for a protocol. *)
Definition qualifies (protocol : string) (inbound : Inbound) : bool :=
  (ib_enable inbound &&
   (negb (PyStr.truthy protocol)
    || String.eqb (default_of "" (ib_protocol inbound)) protocol))%bool.

(** What an entry of [get_all_user_subscriptions] says apart from its
    label. *)
Definition entry_core (e : Subscription) : string * string * string :=
  (s_email e, s_subscription_url e, s_sub_id e).


Definition cfg_inbound0 : Config := mkConfig panel_url "" "" "vmess" 100 (Some 0).

Definition two_protocols : list Inbound :=
  [mkInbound (Some 1) false (Some "vmess") (SettingsClients []);
   mkInbound (Some 2) true (Some "trojan") (SettingsClients []);
   mkInbound (Some 3) true (Some "vmess") (SettingsClients []);
   mkInbound (Some 4) true (Some "vmess") (SettingsClients [])].


(** The emails that [create_user] can submit for a username and a device
    name: the bare username without a device name; with one, the key
    [username_device] or one of the keys [username_device_n] for [n] from
    2 to 100. *)
Definition email_shape (username : string) (device_name : option string)
    (e : string) : Prop :=
  match device_name with
  | None => e = username
  | Some d =>
      e = username ++ "_" ++ d \/
      exists n, 2 <= n <= 100 /\ e = device_key username d n
  end.

(** The requests of a lookup: login requests to the candidate paths, at
    most eight, then [k] listing requests. *)
Definition lookup_trace (cfg : Config) (s s1 : XUIService) (k : nat) : Prop :=
  exists logins,
    sent s1 = (sent s ++ logins ++ repeat (listing cfg) k)%list /\
    (List.length logins <= 8)%nat /\
    Forall (login_request_to cfg login_endpoints) logins.


(** An answer to [addClient] after which [create_user] gives up without
    looking the account up: an exception, a body that is not a JSON
    object, or a JSON object that reports no success (or comes with
    another status than 200) and whose message has none of the words
    that indicate an existing account. *)
Definition plain_failure (o : Outcome) : bool :=
  match o with
  | Raised _ => true
  | Returned r =>
      match body r with
      | NotJson | JsonOther => true
      | JsonObj ok m _ =>
          if status_code r =? 200 then
            (negb ok && negb (indicates_existing (default_of "Unknown error" m)))%bool
          else negb (indicates_existing (default_of "" m))
      end
  end.

Definition refused_plainly : Outcome :=
  Returned (mkResponse 200 (JsonObj false None [])).


(** The text made of [k] copies of a character. *)
Fixpoint chars (c : ascii) (k : nat) : string :=
  match k with
  | O => EmptyString
  | S k' => String c (chars c k')
  end.

(** A word that [create_user] reads as "the account exists", in any
    letter case. *)
Definition existence_word (w : string) : Prop :=
  PyStr.lower w = "exist" \/ PyStr.lower w = "duplicate"
  \/ PyStr.lower w = "already".


(** ** The handlers that call the service ([src/handlers/commands.py]) *)

(** The handler that [button_callback] awaits for the data of a button,
    with the argument it passes. *)
Inductive Route : Type :=
| To_handle_device_selection
| To_handle_setup_iphone_mac
| To_handle_setup_android
| To_handle_setup_windows_linux
| To_handle_app_downloaded
| To_handle_generate_subscription
| To_handle_get_subscription_link
| To_handle_add_device
| To_handle_select_subscription (sub_id : string)
| To_handle_device_name_selected (device_name : string)
| To_handle_enter_custom_device_name
| No_handler.

Definition button_callback (data : string) : Route :=
  if String.eqb data "get_vpn" then To_handle_device_selection
  else if String.eqb data "setup_iphone_mac" then To_handle_setup_iphone_mac
  else if String.eqb data "setup_android" then To_handle_setup_android
  else if String.eqb data "setup_windows_linux"
  then To_handle_setup_windows_linux
  else if String.eqb data "app_downloaded" then To_handle_app_downloaded
  else if String.eqb data "generate_subscription"
  then To_handle_generate_subscription
  else if String.eqb data "get_subscription_link"
  then To_handle_get_subscription_link
  else if String.eqb data "add_device" then To_handle_add_device
  else if PyStr.startswith data "select_subscription_" then
    To_handle_select_subscription (PyStr.remove "select_subscription_" data)
  else if PyStr.startswith data "device_name_" then
    To_handle_device_name_selected (PyStr.remove "device_name_" data)
  else if String.eqb data "enter_custom_device_name"
  then To_handle_enter_custom_device_name
  else No_handler.

(** The data of the button that the subscription menus attach to an
    entry ([handle_get_subscription_link], [devices_command]). *)
Definition select_callback_data (e : Subscription) : string :=
  "select_subscription_" ++ s_sub_id e.

(** The loop of [handle_select_subscription]: the first entry with the
    selected sub id. *)
Fixpoint selected_subscription (all_subscriptions : list Subscription)
    (sub_id : string) : option Subscription :=
  match all_subscriptions with
  | [] => None
  | sub :: rest =>
      if String.eqb (s_sub_id sub) sub_id then Some sub
      else selected_subscription rest sub_id
  end.

(** What [handle_generate_subscription] decides to show: the URL it
    stores, with the flag [is_new_subscription], or the error message it
    ends with.  The texts of the messages are not modelled. *)
Inductive Shown : Type :=
| Stored_url (subscription_url_to_store : string) (is_new_subscription : bool)
| Error_no_username
| Error_username_exists
| Error_message_of_create_user
| Error_creating
| Error_no_link.

(** The end of the choice: an empty URL is not stored. *)
Definition store_url (url : string) (is_new_subscription : bool) : Shown :=
  if negb (PyStr.truthy url) then Error_no_link
  else Stored_url url is_new_subscription.

(** The part of [handle_generate_subscription] between the check of the
    username and the storing of the URL; [None] only when [create_user]
    ran out of fuel. *)
Definition subscription_url_to_store (cfg : Config) (panel : Panel)
    (rnd : Fresh) (telegram_user_id : Z) (username device_name : option string)
    (s : XUIService) : option Shown * XUIService :=
  match if_truthy username with
  | None => (Some Error_no_username, s)
  | Some _ =>
      let '(existing_subscription, s1) :=
        match if_truthy device_name with
        | None => get_user_subscription cfg panel telegram_user_id username s
        | Some _ => (None, s)
        end in
      let use_existing :=
        match existing_subscription, if_truthy device_name with
        | Some url, None => PyStr.truthy url
        | _, _ => false
        end in
      if use_existing then
        (Some (store_url (default_of "" existing_subscription) false), s1)
      else
        let '(result, s2) :=
          create_user cfg panel rnd telegram_user_id username device_name s1 in
        match result with
        | None => (None, s2)
        | Some (Dict_success _ _ _ url _) => (Some (store_url url true), s2)
        | Some (Dict_username_exists _ existing_url) =>
            if PyStr.truthy existing_url
            then (Some (store_url existing_url false), s2)
            else (Some Error_username_exists, s2)
        | Some Dict_username_required => (Some Error_message_of_create_user, s2)
        | Some Dict_too_many_devices => (Some Error_creating, s2)
        | Some ReturnsNone => (Some Error_creating, s2)
        end
  end.

Definition tablet_owner_clients : list Client :=
  [account "bob" "s5" "8"; account "alice_tablet" "s4" "7"].

(** * Properties *)

(** ** Authentication *)

Section Login.

Variable cfg : Config.
Variable panel : Panel.

Lemma login_loop_404 endpoint rest s r :
  panel (sent s) (try_json cfg endpoint) = Returned r ->
  status_code r = 404 ->
  login_loop cfg panel (endpoint :: rest) s =
  login_loop cfg panel rest
    (mkService (_authenticated s) (sent s ++ [try_json cfg endpoint])%list).
Proof.
  intros Hp Hs. cbn [login_loop]. unfold send. fold (try_json cfg endpoint).
  rewrite Hp, Hs. reflexivity.
Qed.

Lemma login_loop_200_success endpoint rest s r m o :
  panel (sent s) (try_json cfg endpoint) = Returned r ->
  status_code r = 200 ->
  body r = JsonObj true m o ->
  login_loop cfg panel (endpoint :: rest) s =
  (true, mkService true (sent s ++ [try_json cfg endpoint])%list).
Proof.
  intros Hp Hs Hb. cbn [login_loop]. unfold send. fold (try_json cfg endpoint).
  rewrite Hp, Hs, Hb. reflexivity.
Qed.

Lemma login_loop_200_not_json endpoint rest s r :
  panel (sent s) (try_json cfg endpoint) = Returned r ->
  status_code r = 200 ->
  body r = NotJson ->
  login_loop cfg panel (endpoint :: rest) s =
  (true, mkService true (sent s ++ [try_json cfg endpoint])%list).
Proof.
  intros Hp Hs Hb. cbn [login_loop]. unfold send. fold (try_json cfg endpoint).
  rewrite Hp, Hs, Hb. reflexivity.
Qed.

(** C8.  [_login] takes the candidates in order; a 404 moves to the next
    candidate with no second request to the same one; a 200 with the
    success flag, or a 200 whose body is not JSON, ends the loop with
    [True], the flag set and no further request.  When the panel answers
    404, 404 and then 200 with the flag, [_login] returns [True] after
    the three requests to ["/login"], ["/xui/login"] and ["/api/login"]. *)
Theorem login_cycles_through_candidates :
  (forall endpoint rest s r,
      panel (sent s) (try_json cfg endpoint) = Returned r ->
      status_code r = 404 ->
      login_loop cfg panel (endpoint :: rest) s =
      login_loop cfg panel rest
        (mkService (_authenticated s) (sent s ++ [try_json cfg endpoint])%list)) /\
  (forall endpoint rest s r,
      panel (sent s) (try_json cfg endpoint) = Returned r ->
      status_code r = 200 ->
      (body r = NotJson \/ exists m o, body r = JsonObj true m o) ->
      login_loop cfg panel (endpoint :: rest) s =
      (true, mkService true (sent s ++ [try_json cfg endpoint])%list)) /\
  (forall s r1 r2 r3 m o,
      panel (sent s) (try_json cfg "/login") = Returned r1 ->
      status_code r1 = 404 ->
      panel (sent s ++ [try_json cfg "/login"])%list (try_json cfg "/xui/login")
        = Returned r2 ->
      status_code r2 = 404 ->
      panel (sent s ++ [try_json cfg "/login"; try_json cfg "/xui/login"])%list
            (try_json cfg "/api/login") = Returned r3 ->
      status_code r3 = 200 ->
      body r3 = JsonObj true m o ->
      _login cfg panel s =
      (true, mkService true
               (sent s ++ [try_json cfg "/login"; try_json cfg "/xui/login";
                           try_json cfg "/api/login"])%list)).
Proof.
  split; [| split].
  - intros; eapply login_loop_404; eassumption.
  - intros endpoint rest s r Hp Hs [Hb | (m & o & Hb)].
    + eapply login_loop_200_not_json; eassumption.
    + eapply login_loop_200_success; eassumption.
  - intros s r1 r2 r3 m o H1 S1 H2 S2 H3 S3 B3.
    unfold _login, login_endpoints.
    rewrite (login_loop_404 _ _ _ _ H1 S1).
    rewrite (login_loop_404 "/xui/login" _ _ r2); [| exact H2 | exact S2].
    cbn [sent _authenticated].
    rewrite (login_loop_200_success "/api/login" _ _ r3 m o);
      cbn [sent _authenticated]; rewrite <- ?app_assoc; cbn [app];
      auto.
Qed.

Lemma login_loop_json_raises endpoint rest s e :
  panel (sent s) (try_json cfg endpoint) = Raised e ->
  login_loop cfg panel (endpoint :: rest) s =
  let s1 := mkService (_authenticated s) (sent s ++ [try_json cfg endpoint])%list in
  match e with
  | ConnectionError => (false, s1)
  | Timeout | OtherException => login_loop cfg panel rest s1
  end.
Proof.
  intros Hp. cbn [login_loop]. unfold send. fold (try_json cfg endpoint).
  rewrite Hp. destruct e; reflexivity.
Qed.

Lemma login_loop_form_raises endpoint rest s r e :
  panel (sent s) (try_json cfg endpoint) = Returned r ->
  status_code r <> 200 ->
  status_code r <> 404 ->
  panel (sent s ++ [try_json cfg endpoint])%list (try_form cfg endpoint) = Raised e ->
  login_loop cfg panel (endpoint :: rest) s =
  let s2 := mkService (_authenticated s)
              (sent s ++ [try_json cfg endpoint; try_form cfg endpoint])%list in
  match e with
  | ConnectionError => (false, s2)
  | Timeout | OtherException => login_loop cfg panel rest s2
  end.
Proof.
  intros Hp H200 H404 Hf. cbn [login_loop]. unfold send.
  fold (try_json cfg endpoint). fold (try_form cfg endpoint).
  rewrite Hp. cbn [sent _authenticated].
  destruct (Z.eqb_spec (status_code r) 200) as [|_]; [contradiction|].
  destruct (Z.eqb_spec (status_code r) 404) as [|_]; [contradiction|].
  rewrite Hf, <- app_assoc. destruct e; reflexivity.
Qed.

(** C9.  A [ConnectionError] raised by a request of [_login], be it the
    JSON request or the form request of a candidate, ends the loop with
    [False]: the remaining candidates receive nothing and the flag keeps
    its value.  A [Timeout] at the same places continues with the next
    candidate. *)
Theorem login_connection_error_aborts_timeout_continues :
  (forall endpoint rest s,
      panel (sent s) (try_json cfg endpoint) = Raised ConnectionError ->
      login_loop cfg panel (endpoint :: rest) s =
      (false, mkService (_authenticated s) (sent s ++ [try_json cfg endpoint])%list)) /\
  (forall endpoint rest s,
      panel (sent s) (try_json cfg endpoint) = Raised Timeout ->
      login_loop cfg panel (endpoint :: rest) s =
      login_loop cfg panel rest
        (mkService (_authenticated s) (sent s ++ [try_json cfg endpoint])%list)) /\
  (forall endpoint rest s r,
      panel (sent s) (try_json cfg endpoint) = Returned r ->
      status_code r <> 200 -> status_code r <> 404 ->
      panel (sent s ++ [try_json cfg endpoint])%list (try_form cfg endpoint)
        = Raised ConnectionError ->
      login_loop cfg panel (endpoint :: rest) s =
      (false, mkService (_authenticated s)
                (sent s ++ [try_json cfg endpoint; try_form cfg endpoint])%list)) /\
  (forall endpoint rest s r,
      panel (sent s) (try_json cfg endpoint) = Returned r ->
      status_code r <> 200 -> status_code r <> 404 ->
      panel (sent s ++ [try_json cfg endpoint])%list (try_form cfg endpoint)
        = Raised Timeout ->
      login_loop cfg panel (endpoint :: rest) s =
      login_loop cfg panel rest
        (mkService (_authenticated s)
           (sent s ++ [try_json cfg endpoint; try_form cfg endpoint])%list)).
Proof.
  repeat split; intros.
  - erewrite login_loop_json_raises by eassumption. reflexivity.
  - erewrite login_loop_json_raises by eassumption. reflexivity.
  - erewrite login_loop_form_raises by eassumption. reflexivity.
  - erewrite login_loop_form_raises by eassumption. reflexivity.
Qed.

End Login.

(** ** Looking accounts up *)

Section Lookup.

Variable cfg : Config.
Variable panel : Panel.

Lemma ensure_authenticated_logged_in s :
  _authenticated s = true -> _ensure_authenticated cfg panel s = (true, s).
Proof. intros H. unfold _ensure_authenticated. rewrite H. reflexivity. Qed.

Lemma get_inbound_clients_listed i s inbounds :
  _authenticated s = true ->
  listed (panel (sent s) (GET_inbounds (list_url cfg))) = Some inbounds ->
  get_inbound_clients cfg panel i s =
  (inbound_with_id i inbounds,
   mkService true (sent s ++ [GET_inbounds (list_url cfg)])%list).
Proof.
  intros Ha Hl. unfold get_inbound_clients.
  rewrite (ensure_authenticated_logged_in s Ha). cbn [negb].
  unfold send. rewrite Ha.
  destruct (panel (sent s) (GET_inbounds (list_url cfg))) as [r|e];
    cbn [listed] in Hl; [|discriminate].
  destruct (status_code r =? 200); [|discriminate]. cbn [negb].
  destruct (body r); try discriminate. congruence.
Qed.

Lemma find_user_by_username_listed username inbound_id i s inbounds :
  _authenticated s = true ->
  listed (panel (sent s) (GET_inbounds (list_url cfg))) = Some inbounds ->
  check_id cfg inbound_id = Some i ->
  i <> 0 ->
  find_user_by_username cfg panel username inbound_id s =
  (match clients_of i inbounds with
   | Some clients => scan_clients cfg username i clients
   | None => None
   end,
   mkService true (sent s ++ [GET_inbounds (list_url cfg)])%list).
Proof.
  intros Ha Hl Hc Hi. unfold find_user_by_username.
  rewrite (ensure_authenticated_logged_in s Ha). cbn [negb].
  unfold check_id in Hc. rewrite Hc.
  destruct (Z.eqb_spec i 0) as [|_]; [contradiction|].
  rewrite (get_inbound_clients_listed i s inbounds Ha Hl).
  unfold clients_of.
  destruct (inbound_with_id i inbounds) as [inbound|]; [|reflexivity].
  destruct (ib_settings inbound); reflexivity.
Qed.

Lemma find_user_by_username_no_inbound username inbound_id s :
  _authenticated s = true ->
  check_id cfg inbound_id = None \/ check_id cfg inbound_id = Some 0 ->
  find_user_by_username cfg panel username inbound_id s = (None, s).
Proof.
  intros Ha Hc. unfold find_user_by_username.
  rewrite (ensure_authenticated_logged_in s Ha). cbn [negb].
  unfold check_id in Hc. destruct Hc as [Hc | Hc]; rewrite Hc; reflexivity.
Qed.

Lemma scan_clients_find username i clients :
  scan_clients cfg username i clients =
  option_map (found_of cfg username i) (find (usable username) clients).
Proof.
  induction clients as [|c rest IH]; [reflexivity|].
  cbn [scan_clients find]. unfold usable at 1, email_is, has_sub_id.
  destruct (String.eqb (default_of "" (email c)) username); cbn [andb];
    [|exact IH].
  destruct (PyStr.truthy (default_of "" (subId c))); [reflexivity | exact IH].
Qed.

Lemma find_usable_none username clients :
  (forall c, In c clients -> email_is username c = false) ->
  find (usable username) clients = None.
Proof.
  intros H. induction clients as [|c rest IH]; [reflexivity|].
  cbn [find]. unfold usable at 1. rewrite (H c (or_introl eq_refl)).
  cbn [andb]. apply IH. intros c' Hc'. apply H. right. exact Hc'.
Qed.

Lemma find_usable_some username clients :
  (exists c, In c clients /\ usable username c = true) ->
  exists c, find (usable username) clients = Some c /\
            In c clients /\ usable username c = true.
Proof.
  intros (c & Hin & Hu).
  destruct (find (usable username) clients) as [c'|] eqn:E.
  - exists c'. split; [reflexivity|]. apply find_some in E. exact E.
  - rewrite (find_none _ _ E c Hin) in Hu. discriminate.
Qed.

(** C6, amended.  When the session is authenticated, the panel lists its
    inbounds and the inbound to read (the given one, else the configured
    one, not 0) has a client list, [find_user_by_username] returns the
    first client whose email equals the query and whose [subId] is not
    empty, with the URL derived from that [subId]; a client without
    [subId] is passed over.  It returns [None] when no client has the
    queried email. *)
Theorem find_user_by_username_first_usable
    username inbound_id i s inbounds clients :
  _authenticated s = true ->
  listed (panel (sent s) (GET_inbounds (list_url cfg))) = Some inbounds ->
  check_id cfg inbound_id = Some i ->
  i <> 0 ->
  clients_of i inbounds = Some clients ->
  let r := fst (find_user_by_username cfg panel username inbound_id s) in
  r = option_map (found_of cfg username i) (find (usable username) clients) /\
  ((exists c, In c clients /\ email_is username c = true /\ has_sub_id c = true) ->
   exists c, In c clients /\ email_is username c = true /\
             has_sub_id c = true /\ r = Some (found_of cfg username i c)) /\
  ((forall c, In c clients -> email_is username c = false) -> r = None).
Proof.
  intros Ha Hl Hc Hi Hcs r.
  assert (Hr : r = option_map (found_of cfg username i)
                     (find (usable username) clients)).
  { subst r.
    rewrite (find_user_by_username_listed username inbound_id i s inbounds
               Ha Hl Hc Hi), Hcs.
    cbn [fst]. apply scan_clients_find. }
  split; [exact Hr|]. split.
  - intros (c & Hin & He & Hs).
    destruct (find_usable_some username clients) as (c' & Hf & Hin' & Hu').
    { exists c. split; [exact Hin|]. unfold usable. rewrite He, Hs. reflexivity. }
    exists c'. unfold usable in Hu'. apply andb_prop in Hu'.
    destruct Hu' as [He' Hs'].
    repeat split; try assumption. rewrite Hr, Hf. reflexivity.
  - intros Hnone. rewrite Hr, (find_usable_none username clients Hnone).
    reflexivity.
Qed.

End Lookup.

(** ** Listing the subscriptions of an owner *)

Section Subscriptions.

Variable cfg : Config.
Variable panel : Panel.

Lemma device_name_of_label base_username client_email :
  device_name_of base_username client_email =
  device_label base_username client_email.
Proof.
  unfold device_name_of, device_label.
  destruct base_username as [b|].
  - destruct (String.eqb client_email b); [reflexivity|].
    destruct (PyStr.startswith client_email (b ++ "_")).
    + reflexivity.
    + destruct client_email; reflexivity.
  - destruct client_email; reflexivity.
Qed.

Lemma collect_subscriptions_filter telegram_user_id base_username clients :
  forall subscriptions,
    collect_subscriptions cfg telegram_user_id base_username clients
      subscriptions =
    (subscriptions ++
     map (subscription_of cfg (device_label base_username))
         (filter (owned_with_sub_id telegram_user_id) clients))%list.
Proof.
  induction clients as [|c rest IH]; intros acc; cbn [collect_subscriptions].
  - cbn. rewrite app_nil_r. reflexivity.
  - cbn [filter]. unfold owned_with_sub_id at 1, has_sub_id.
    destruct (String.eqb (default_of "" (tgId c)) (PyStr.str telegram_user_id));
      cbn [negb andb]; [|apply IH].
    destruct (PyStr.truthy (default_of "" (subId c))); cbn [negb];
      [|apply IH].
    rewrite IH, <- app_assoc. cbn [map app]. unfold subscription_of at 2.
    rewrite device_name_of_label. reflexivity.
Qed.

(** C4, amended.  When the session is authenticated, a default inbound
    other than 0 is configured and the panel lists it with a client
    list, [get_all_user_subscriptions] returns exactly the clients whose
    [tgId] is the text of the queried id and whose [subId] is not empty,
    in the order of the client list.  With a base username, the label is
    the first-device label when the email equals it, the remainder after
    [username_] when the email starts with that prefix and the remainder
    is not empty, and the email itself otherwise; without a base
    username it is the email. *)
Theorem get_all_user_subscriptions_owned_in_order
    telegram_user_id username i s inbounds clients :
  _authenticated s = true ->
  listed (panel (sent s) (GET_inbounds (list_url cfg))) = Some inbounds ->
  DEFAULT_INBOUND_ID cfg = Some i ->
  i <> 0 ->
  clients_of i inbounds = Some clients ->
  lists_owned_clients device_label cfg panel telegram_user_id username
    clients s.
Proof.
  intros Ha Hl Hd Hi Hcs.
  unfold lists_owned_clients, get_all_user_subscriptions.
  rewrite (ensure_authenticated_logged_in cfg panel s Ha). cbn [negb].
  rewrite Hd. destruct (Z.eqb_spec i 0) as [|_]; [contradiction|].
  rewrite (get_inbound_clients_listed cfg panel i s inbounds Ha Hl).
  unfold clients_of in Hcs.
  destruct (inbound_with_id i inbounds) as [inbound|]; [|discriminate].
  destruct (ib_settings inbound) as [|cs]; [discriminate|].
  injection Hcs as ->. cbn [fst].
  rewrite collect_subscriptions_filter. reflexivity.
Qed.

(** C10.  [get_user_subscription] returns the subscription URL of the
    first element of the list that [get_all_user_subscriptions] returns
    for the same arguments, and [None] when that list is empty; it leaves
    the service in the state the list lookup leaves it in. *)
Theorem get_user_subscription_is_head telegram_user_id username s :
  get_user_subscription cfg panel telegram_user_id username s =
  (option_map s_subscription_url
     (hd_error (fst (get_all_user_subscriptions cfg panel telegram_user_id
                       username s))),
   snd (get_all_user_subscriptions cfg panel telegram_user_id username s)).
Proof.
  unfold get_user_subscription.
  destruct (get_all_user_subscriptions cfg panel telegram_user_id username s)
    as [[|first rest] s1]; reflexivity.
Qed.

End Subscriptions.

(** ** Creating accounts *)

Section Create.

Variable cfg : Config.
Variable panel : Panel.

Lemma login_loop_true endpoints :
  forall s s1, login_loop cfg panel endpoints s = (true, s1) ->
               _authenticated s1 = true.
Proof.
  induction endpoints as [|e rest IH]; intros s s1; cbn [login_loop].
  - discriminate.
  - unfold send.
    destruct (panel (sent s) (POST_login (base cfg ++ e) AsJson)) as [r|[| |]];
      try (apply IH); try discriminate.
    destruct (status_code r =? 200).
    + destruct (body r) as [| |[|] m o]; try (apply IH);
        intros H; injection H as <-; reflexivity.
    + destruct (status_code r =? 404); [apply IH|].
      cbn [sent _authenticated].
      destruct (panel _ (POST_login (base cfg ++ e) AsForm)) as [r2|[| |]];
        try (apply IH); try discriminate.
      destruct (status_code r2 =? 200); [|apply IH].
      intros H; injection H as <-; reflexivity.
Qed.

Lemma ensure_authenticated_true s s1 :
  _ensure_authenticated cfg panel s = (true, s1) -> _authenticated s1 = true.
Proof.
  unfold _ensure_authenticated.
  destruct (_authenticated s) eqn:Ha; cbn [negb].
  - intros H; injection H as <-; exact Ha.
  - apply login_loop_true.
Qed.

Lemma find_user_by_username_keeps_session username inbound_id s :
  _authenticated s = true ->
  _authenticated
    (snd (find_user_by_username cfg panel username inbound_id s)) = true.
Proof.
  intros Ha. unfold find_user_by_username.
  rewrite (ensure_authenticated_logged_in cfg panel s Ha). cbn [negb].
  destruct inbound_id as [i|]; [|destruct (DEFAULT_INBOUND_ID cfg) as [i|]];
    try exact Ha.
  all: destruct (i =? 0); [exact Ha|].
  all: unfold get_inbound_clients;
    rewrite (ensure_authenticated_logged_in cfg panel s Ha); cbn [negb];
    unfold send; rewrite Ha.
  all: destruct (panel (sent s) (GET_inbounds (list_url cfg))) as [r|e];
    [|reflexivity].
  all: destruct (negb (status_code r =? 200)); [reflexivity|].
  all: destruct (body r) as [| |ok m inbounds]; try reflexivity.
  all: destruct (inbound_with_id i inbounds) as [inbound|]; [|reflexivity].
  all: destruct (ib_settings inbound); reflexivity.
Qed.

(** The loop over [counter] ends within the iterations that are left up
    to 100, whatever the panel answers. *)
Lemma probe_loop_finishes username device_name fuel :
  forall counter s,
    (Z.to_nat (101 - counter) <= fuel)%nat ->
    counter <= 100 ->
    fst (probe_loop cfg panel fuel username device_name counter s) <> None.
Proof.
  induction fuel as [|fuel IH]; intros counter s Hf Hc.
  - lia.
  - cbn [probe_loop].
    destruct (find_user_by_username cfg panel _ None s) as [[f|] s1];
      [|cbn; discriminate].
    destruct (Z.gtb_spec (counter + 1) 100) as [Hgt | Hle];
      [cbn; discriminate|].
    apply IH; lia.
Qed.

(** [create_user] always returns: the fuel of the model is never used up. *)
Lemma create_user_returns rnd telegram_user_id username device_name s :
  fst (create_user cfg panel rnd telegram_user_id username device_name s)
  <> None.
Proof.
  unfold create_user.
  destruct (if_truthy username) as [u|]; [|cbn; discriminate].
  destruct (_ensure_authenticated cfg panel s) as [[|] s1];
    cbn [negb]; [|cbn; discriminate].
  destruct (choose_email cfg panel u device_name s1) as [chosen s2] eqn:E.
  assert (Hc : chosen <> None).
  { unfold choose_email in E.
    destruct (if_truthy device_name) as [d|].
    - destruct (find_user_by_username cfg panel (u ++ "_" ++ d) None s1)
        as [[f|] s1'].
      + pose proof (probe_loop_finishes u d probe_fuel 2 s1') as H.
        rewrite E in H. cbn [fst] in H. apply H; unfold probe_fuel; lia.
      + injection E as <- _. discriminate.
    - destruct (find_user_by_username cfg panel u None s1) as [[f|] s1'];
        injection E as <- _; discriminate. }
  destruct chosen as [[email|r]|]; [| cbn; discriminate | contradiction].
  destruct (target_inbound cfg panel s2) as [[inbound_id|] s3];
    [|cbn; discriminate].
  destruct (submit cfg panel rnd telegram_user_id u email inbound_id s3).
  cbn; discriminate.
Qed.

Lemma find_user_by_username_appends username inbound_id s :
  _authenticated s = true ->
  exists extra,
    sent (snd (find_user_by_username cfg panel username inbound_id s)) =
    (sent s ++ extra)%list.
Proof.
  intros Ha. unfold find_user_by_username.
  rewrite (ensure_authenticated_logged_in cfg panel s Ha). cbn [negb].
  assert (Hsame : exists extra, sent s = (sent s ++ extra)%list)
    by (exists []; rewrite app_nil_r; reflexivity).
  destruct inbound_id as [i|]; [|destruct (DEFAULT_INBOUND_ID cfg) as [i|]];
    try exact Hsame.
  all: destruct (i =? 0); [exact Hsame|].
  all: unfold get_inbound_clients;
    rewrite (ensure_authenticated_logged_in cfg panel s Ha); cbn [negb];
    unfold send.
  all: exists [GET_inbounds (list_url cfg)].
  all: destruct (panel (sent s) (GET_inbounds (list_url cfg))) as [r|e];
    [|reflexivity].
  all: destruct (negb (status_code r =? 200)); [reflexivity|].
  all: destruct (body r) as [| |ok m inbounds]; try reflexivity.
  all: destruct (inbound_with_id i inbounds) as [inbound|]; [|reflexivity].
  all: destruct (ib_settings inbound); reflexivity.
Qed.

(** [submit] first sends the [addClient] request for the email it is
    given. *)
Lemma submit_sends rnd telegram_user_id username email inbound_id s :
  _authenticated s = true ->
  exists extra,
    sent (snd (submit cfg panel rnd telegram_user_id username email
                 inbound_id s)) =
    (sent s ++
     POST_addClient (add_client_url cfg) inbound_id
       (client_data cfg rnd telegram_user_id email) :: extra)%list.
Proof.
  intros Ha. unfold submit, send. rewrite Ha.
  set (q := POST_addClient (add_client_url cfg) inbound_id
              (client_data cfg rnd telegram_user_id email)).
  set (s1 := mkService true (sent s ++ [q])%list).
  assert (Hnone : exists extra, sent s1 = (sent s ++ q :: extra)%list)
    by (exists []; reflexivity).
  assert (Hrec : exists extra,
             sent (snd (recover_existing cfg panel username inbound_id s1)) =
             (sent s ++ q :: extra)%list).
  { unfold recover_existing.
    destruct (find_user_by_username_appends username inbound_id s1 eq_refl)
      as (extra & He).
    exists extra.
    destruct (find_user_by_username cfg panel username inbound_id s1)
      as [[f|] s2]; cbn [snd] in *; rewrite He; subst s1; cbn [sent];
      rewrite <- app_assoc; reflexivity. }
  destruct (panel (sent s) q) as [r|e]; [|exact Hnone].
  destruct (status_code r =? 200).
  - destruct (body r) as [| |[|] m o]; try exact Hnone.
    destruct (indicates_existing (default_of "Unknown error" m));
      [exact Hrec | exact Hnone].
  - destruct (body r) as [| |ok m o]; try exact Hnone.
    destruct (indicates_existing (default_of "" m));
      [exact Hrec | exact Hnone].
Qed.

Lemma taken_scan key i clients :
  taken clients key = false <-> scan_clients cfg key i clients = None.
Proof.
  rewrite scan_clients_find. unfold taken.
  induction clients as [|c rest IH]; cbn [existsb find]; [tauto|].
  destruct (usable key c); cbn [orb option_map]; [|exact IH].
  split; discriminate.
Qed.

Section StablePanel.

Variable inbounds : list Inbound.
Variable i : Z.
Variable clients : list Client.
Hypothesis Hlists : always_lists cfg panel inbounds.
Hypothesis Hdefault : DEFAULT_INBOUND_ID cfg = Some i.
Hypothesis Hi : i <> 0.
Hypothesis Hclients : clients_of i inbounds = Some clients.

Lemma after_listings_add m n s :
  after_listings cfg n (after_listings cfg m s) = after_listings cfg (m + n) s.
Proof.
  unfold after_listings. cbn [sent]. rewrite <- app_assoc, repeat_app.
  reflexivity.
Qed.

Lemma lookup_default key s :
  _authenticated s = true ->
  find_user_by_username cfg panel key None s =
  (scan_clients cfg key i clients, after_listings cfg 1 s).
Proof.
  intros Ha.
  rewrite (find_user_by_username_listed cfg panel key None i s inbounds
             Ha (Hlists (sent s)) Hdefault Hi), Hclients.
  reflexivity.
Qed.

Lemma lookup_free key s :
  _authenticated s = true ->
  taken clients key = false ->
  find_user_by_username cfg panel key None s = (None, after_listings cfg 1 s).
Proof.
  intros Ha Ht. rewrite (lookup_default key s Ha).
  apply (taken_scan key i) in Ht. rewrite Ht. reflexivity.
Qed.

Lemma lookup_taken key s :
  _authenticated s = true ->
  taken clients key = true ->
  exists f, find_user_by_username cfg panel key None s =
            (Some f, after_listings cfg 1 s).
Proof.
  intros Ha Ht. rewrite (lookup_default key s Ha).
  destruct (scan_clients cfg key i clients) as [f|] eqn:E.
  - exists f. reflexivity.
  - apply (taken_scan key i) in E. congruence.
Qed.

Lemma probe_loop_first_free username device_name n fuel :
  forall counter s,
    _authenticated s = true ->
    2 <= counter <= n ->
    (forall j, counter <= j < n ->
               taken clients (device_key username device_name j) = true) ->
    taken clients (device_key username device_name n) = false ->
    n <= 100 ->
    (Z.to_nat (n - counter) < fuel)%nat ->
    probe_loop cfg panel fuel username device_name counter s =
    (Some (Use_email (device_key username device_name n)),
     after_listings cfg (Z.to_nat (n - counter + 1)) s).
Proof.
  induction fuel as [|fuel IH]; intros counter s Ha Hc Hbefore Hfree Hn Hf.
  - lia.
  - cbn [probe_loop]. fold (device_key username device_name counter).
    destruct (Z.eq_dec counter n) as [-> | Hne].
    + rewrite (lookup_free _ s Ha Hfree).
      replace (n - n + 1) with 1 by lia. reflexivity.
    + destruct (lookup_taken (device_key username device_name counter) s Ha)
        as (f & ->); [apply Hbefore; lia|].
      destruct (Z.gtb_spec (counter + 1) 100) as [Hgt | _]; [lia|].
      rewrite IH; try lia; try assumption; try reflexivity.
      * rewrite after_listings_add. do 2 f_equal. lia.
      * intros j Hj. apply Hbefore. lia.
Qed.

Lemma probe_loop_all_taken username device_name fuel :
  forall counter s,
    _authenticated s = true ->
    2 <= counter <= 100 ->
    (forall j, counter <= j <= 100 ->
               taken clients (device_key username device_name j) = true) ->
    (Z.to_nat (100 - counter) < fuel)%nat ->
    probe_loop cfg panel fuel username device_name counter s =
    (Some (Return_early Dict_too_many_devices),
     after_listings cfg (Z.to_nat (100 - counter + 1)) s).
Proof.
  induction fuel as [|fuel IH]; intros counter s Ha Hc Hall Hf.
  - lia.
  - cbn [probe_loop]. fold (device_key username device_name counter).
    destruct (lookup_taken (device_key username device_name counter) s Ha)
      as (f & ->); [apply Hall; lia|].
    destruct (Z.gtb_spec (counter + 1) 100) as [Hgt | Hle].
    + replace (100 - counter + 1) with 1 by lia. reflexivity.
    + rewrite IH; try lia; try reflexivity.
      * rewrite after_listings_add. do 2 f_equal. lia.
      * intros j Hj. apply Hall. lia.
Qed.

End StablePanel.

End Create.

Section CreateClaims.

Variable cfg : Config.
Variable panel : Panel.

(** C2, amended.  Let a default inbound other than 0 be configured and
    listed by the panel with a client list, and call a key taken when that
    list has a client with this email and a non-empty [subId].  If
    [username_device] is taken, [create_user] probes [username_device_2],
    [username_device_3], ... in this order, one listing request per key,
    and submits the first key that is not taken: its requests are [n]
    listing requests followed by the [addClient] request for
    [username_device_n].  If every key up to [username_device_100] is
    taken it returns the dictionary [too_many_devices] after 100 listing
    requests and submits nothing. *)
Theorem create_user_probes_device_keys
    rnd telegram_user_id username device_name s inbounds i clients :
  PyStr.truthy username = true ->
  PyStr.truthy device_name = true ->
  _authenticated s = true ->
  always_lists cfg panel inbounds ->
  DEFAULT_INBOUND_ID cfg = Some i ->
  i <> 0 ->
  clients_of i inbounds = Some clients ->
  taken clients (username ++ "_" ++ device_name) = true ->
  (forall n,
      2 <= n <= 100 ->
      (forall j, 2 <= j < n ->
                 taken clients (device_key username device_name j) = true) ->
      taken clients (device_key username device_name n) = false ->
      create_user cfg panel rnd telegram_user_id (Some username)
        (Some device_name) s =
      (let submitted :=
         submit cfg panel rnd telegram_user_id username
           (device_key username device_name n) (Some i)
           (after_listings cfg (Z.to_nat n) s) in
       (Some (fst submitted), snd submitted)) /\
      exists extra,
        sent (snd (create_user cfg panel rnd telegram_user_id (Some username)
                     (Some device_name) s)) =
        (sent s ++ repeat (listing cfg) (Z.to_nat n) ++
         POST_addClient (add_client_url cfg) (Some i)
           (client_data cfg rnd telegram_user_id
              (device_key username device_name n)) :: extra)%list) /\
  ((forall j, 2 <= j <= 100 ->
              taken clients (device_key username device_name j) = true) ->
   create_user cfg panel rnd telegram_user_id (Some username)
     (Some device_name) s =
   (Some Dict_too_many_devices, after_listings cfg 100 s)).
Proof.
  intros Hu Hd Ha Hl Hdef Hi Hcs Htaken.
  assert (Hstart :
    create_user cfg panel rnd telegram_user_id (Some username)
      (Some device_name) s =
    let '(chosen, s2) :=
      probe_loop cfg panel probe_fuel username device_name 2
        (after_listings cfg 1 s) in
    match chosen with
    | None => (None, s2)
    | Some (Return_early r) => (Some r, s2)
    | Some (Use_email email) =>
        let '(r, s4) :=
          submit cfg panel rnd telegram_user_id username email (Some i) s2 in
        (Some r, s4)
    end).
  { unfold create_user, if_truthy. rewrite Hu.
    rewrite (ensure_authenticated_logged_in cfg panel s Ha). cbn [negb].
    unfold choose_email, if_truthy. rewrite Hd.
    destruct (lookup_taken cfg panel inbounds i clients Hl Hdef Hi Hcs
                (username ++ "_" ++ device_name) s Ha Htaken) as (f & ->).
    destruct (probe_loop cfg panel probe_fuel username device_name 2
                (after_listings cfg 1 s)) as [[[email|r]|] s2];
      try reflexivity.
    unfold target_inbound. rewrite Hdef. reflexivity. }
  split.
  - intros n Hn Hbefore Hfree. rewrite Hstart.
    rewrite (probe_loop_first_free cfg panel inbounds i clients Hl Hdef Hi Hcs
               username device_name n probe_fuel 2 (after_listings cfg 1 s));
      try reflexivity; try assumption; try lia;
      [| unfold probe_fuel; lia].
    rewrite after_listings_add.
    replace (1 + Z.to_nat (n - 2 + 1))%nat with (Z.to_nat n) by lia.
    cbv zeta.
    destruct (submit_sends cfg panel rnd telegram_user_id username
                (device_key username device_name n) (Some i)
                (after_listings cfg (Z.to_nat n) s) eq_refl) as (extra & He).
    destruct (submit cfg panel rnd telegram_user_id username
                (device_key username device_name n) (Some i)
                (after_listings cfg (Z.to_nat n) s)) as [res s4].
    split; [reflexivity|].
    exists extra. cbn [snd] in *. rewrite He. unfold after_listings, listing.
    cbn [sent]. rewrite <- app_assoc. reflexivity.
  - intros Hall. rewrite Hstart.
    rewrite (probe_loop_all_taken cfg panel inbounds i clients Hl Hdef Hi Hcs
               username device_name probe_fuel 2 (after_listings cfg 1 s));
      try reflexivity; try assumption; try lia;
      [| unfold probe_fuel; lia].
    rewrite after_listings_add. reflexivity.
Qed.

Lemma get_existing_inbound_no_target s :
  no_target cfg panel ->
  fst (_get_existing_inbound cfg panel (DEFAULT_PROTOCOL cfg) s) = None.
Proof.
  intros Hn. unfold _get_existing_inbound.
  destruct (_ensure_authenticated cfg panel s) as [[|] s1]; cbn [negb];
    [|reflexivity].
  unfold send. specialize (Hn (sent s1)). unfold listed in Hn.
  destruct (panel (sent s1) (GET_inbounds (list_url cfg))) as [r|e];
    [|reflexivity].
  destruct (status_code r =? 200); cbn [negb]; [|reflexivity].
  destruct (body r) as [| |ok m inbounds]; try reflexivity.
  destruct inbounds; [reflexivity|]. cbn [fst]. exact Hn.
Qed.

(** C5, amended.  For an identity with a username, when no inbound id is
    configured and the panel lists no enabled inbound of the configured
    protocol, [create_user] returns [None], with or without a device
    name: the caller gets no dictionary and no error tag. *)
Theorem create_user_without_inbound_returns_none
    rnd telegram_user_id username device_name s :
  PyStr.truthy username = true ->
  DEFAULT_INBOUND_ID cfg = None ->
  no_target cfg panel ->
  fst (create_user cfg panel rnd telegram_user_id (Some username)
         device_name s) = Some ReturnsNone.
Proof.
  intros Hu Hdef Hn. unfold create_user, if_truthy. rewrite Hu.
  destruct (_ensure_authenticated cfg panel s) as [[|] s1] eqn:E;
    cbn [negb]; [|reflexivity].
  pose proof (ensure_authenticated_true cfg panel s s1 E) as Ha.
  assert (Hfind : forall key,
             find_user_by_username cfg panel key None s1 = (None, s1)).
  { intros key. apply find_user_by_username_no_inbound; [exact Ha|].
    left. exact Hdef. }
  unfold choose_email.
  destruct (if_truthy device_name) as [d|]; rewrite Hfind.
  all: unfold target_inbound; rewrite Hdef.
  all: pose proof (get_existing_inbound_no_target s1 Hn) as Hg.
  all: destruct (_get_existing_inbound cfg panel (DEFAULT_PROTOCOL cfg) s1)
         as [[inbound|] s3]; cbn [fst] in Hg; [discriminate | reflexivity].
Qed.

Lemma scan_clients_skips username i before rest :
  (forall c, In c before -> email_is username c = false) ->
  scan_clients cfg username i (before ++ rest) =
  scan_clients cfg username i rest.
Proof.
  intros H. induction before as [|c before IH]; [reflexivity|].
  cbn [app scan_clients].
  pose proof (H c (or_introl eq_refl)) as Hc. unfold email_is in Hc.
  rewrite Hc. apply IH. intros c' Hc'. apply H. right. exact Hc'.
Qed.

(** C7, amended.  Let a default inbound other than 0 be configured, let
    its client list hold no client with email [username], let the panel
    accept the new client and list it afterwards at the end of that
    inbound's clients.  Then the first call of [create_user] without a
    device submits a client whose email is the bare username and returns
    the success dictionary, and a second call for the same identity
    returns [username_exists] with the same URL after one listing request
    and without submitting anything. *)
Theorem create_user_twice_finds_first
    rnd rnd2 telegram_user_id username s i inbounds0 clients0 inbounds1 r m o :
  let add :=
    POST_addClient (add_client_url cfg) (Some i)
      (client_data cfg rnd telegram_user_id username) in
  let url := _get_subscription_url cfg (fresh_sub_id rnd) in
  let s1 := mkService true (sent s ++ [listing cfg; add])%list in
  PyStr.truthy username = true ->
  PyStr.truthy (fresh_sub_id rnd) = true ->
  _authenticated s = true ->
  DEFAULT_INBOUND_ID cfg = Some i ->
  i <> 0 ->
  listed (panel (sent s) (listing cfg)) = Some inbounds0 ->
  clients_of i inbounds0 = Some clients0 ->
  (forall c, In c clients0 -> email_is username c = false) ->
  panel (sent s ++ [listing cfg])%list add = Returned r ->
  status_code r = 200 ->
  body r = JsonObj true m o ->
  listed (panel (sent s1) (listing cfg)) = Some inbounds1 ->
  clients_of i inbounds1 =
    Some (clients0 ++ [client_data cfg rnd telegram_user_id username])%list ->
  email (client_data cfg rnd telegram_user_id username) = Some username /\
  create_user cfg panel rnd telegram_user_id (Some username) None s =
  (Some (Dict_success (user_uuid rnd) (fresh_sub_id rnd) (Some i) url
           (DEFAULT_TOTAL_GB cfg)), s1) /\
  create_user cfg panel rnd2 telegram_user_id (Some username) None s1 =
  (Some (Dict_username_exists username url),
   mkService true (sent s1 ++ [listing cfg])%list) /\
  second_call_finds_first cfg panel rnd rnd2 telegram_user_id username s.
Proof.
  intros add url s1 Hu Hsub Ha Hdef Hi Hl0 Hc0 Hnone Hadd Hst Hbody Hl1 Hc1.
  assert (H1 :
    create_user cfg panel rnd telegram_user_id (Some username) None s =
    (Some (Dict_success (user_uuid rnd) (fresh_sub_id rnd) (Some i) url
             (DEFAULT_TOTAL_GB cfg)), s1)).
  { unfold create_user, if_truthy. rewrite Hu.
    rewrite (ensure_authenticated_logged_in cfg panel s Ha). cbn [negb].
    unfold choose_email, if_truthy.
    rewrite (find_user_by_username_listed cfg panel username None i s
               inbounds0 Ha Hl0 Hdef Hi), Hc0.
    rewrite scan_clients_find, (find_usable_none username clients0 Hnone).
    cbn [option_map]. unfold target_inbound. rewrite Hdef.
    unfold submit, send. cbn [sent _authenticated].
    fold add. fold (listing cfg). rewrite Hadd, Hst, Hbody. cbn [Z.eqb Pos.eqb].
    subst s1. rewrite <- app_assoc. reflexivity. }
  assert (H2 :
    create_user cfg panel rnd2 telegram_user_id (Some username) None s1 =
    (Some (Dict_username_exists username url),
     mkService true (sent s1 ++ [listing cfg])%list)).
  { unfold create_user, if_truthy. rewrite Hu.
    rewrite (ensure_authenticated_logged_in cfg panel s1 eq_refl). cbn [negb].
    unfold choose_email, if_truthy.
    rewrite (find_user_by_username_listed cfg panel username None i s1
               inbounds1 eq_refl Hl1 Hdef Hi), Hc1.
    rewrite (scan_clients_skips username i clients0 _ Hnone).
    cbn [scan_clients client_data email subId default_of].
    rewrite String.eqb_refl, Hsub. reflexivity. }
  split; [reflexivity|]. split; [exact H1|]. split; [exact H2|].
  unfold second_call_finds_first. do 7 eexists.
  split; [exact H1|]. split; [exact H2|].
  unfold submissions. cbn [sent]. rewrite filter_app, length_app.
  cbn. lia.
Qed.

End CreateClaims.

(** ** The subscription URL *)

Section UrlRules.

Lemma split_head_absent sep s :
  PyStr.has_char sep s = false -> PyStr.split_head sep s = s.
Proof.
  induction s as [|c s IH]; cbn [PyStr.has_char PyStr.split_head];
    [reflexivity|].
  destruct (Ascii.eqb c sep); [discriminate|].
  intros H. rewrite (IH H). reflexivity.
Qed.

Lemma host_for_fallback_parses base_url :
  host_for_fallback base_url =
  PyStr.split_head ":" (PyStr.split_head "/" base_url).
Proof.
  unfold host_for_fallback.
  destruct (PyStr.has_char "/" base_url) eqn:Hs.
  - destruct (PyStr.has_char ":" (PyStr.split_head "/" base_url)) eqn:Hc;
      [reflexivity|].
    rewrite (split_head_absent _ _ Hc). reflexivity.
  - rewrite (split_head_absent _ _ Hs).
    destruct (PyStr.has_char ":" base_url) eqn:Hc; [reflexivity|].
    rewrite (split_head_absent _ _ Hc). reflexivity.
Qed.

Lemma split_head_colon_first s :
  PyStr.has_char "/" (PyStr.split_head ":" s) = false ->
  PyStr.split_head ":" (PyStr.split_head "/" s) = PyStr.split_head ":" s.
Proof.
  induction s as [|c s IH]; cbn [PyStr.split_head]; [reflexivity|].
  destruct (Ascii.eqb c ":") eqn:Ec.
  - apply Ascii.eqb_eq in Ec. subst c. reflexivity.
  - cbn [PyStr.has_char]. destruct (Ascii.eqb c "/") eqn:Es; [discriminate|].
    intros H. cbn [PyStr.split_head]. rewrite Ec, (IH H). reflexivity.
Qed.

Lemma host_for_port_override_parses base_url :
  colon_before_slash base_url = true ->
  host_for_port_override base_url =
  PyStr.split_head ":" (PyStr.split_head "/" base_url).
Proof.
  unfold colon_before_slash, host_for_port_override. intros H.
  apply negb_true_iff in H.
  destruct (PyStr.has_char ":" base_url) eqn:Hc.
  - symmetry. apply split_head_colon_first. exact H.
  - rewrite (split_head_absent _ _ Hc) in H. rewrite H.
    rewrite (split_head_absent _ _ H), (split_head_absent _ _ Hc).
    reflexivity.
Qed.

(** The rules (a) and (c) of C3 hold for every configuration, and rule (b)
    holds when no ["/"] precedes the first [":"] of the base URL without
    its scheme. *)
Lemma subscription_url_rules cfg sub_id :
  PyStr.truthy (XUI_SUBSCRIPTION_HOST cfg) = true
  \/ PyStr.truthy (XUI_SUBSCRIPTION_PORT cfg) = false
  \/ colon_before_slash (strip_schemes (XUI_URL cfg)) = true ->
  _get_subscription_url cfg sub_id = subscription_url_claimed cfg sub_id.
Proof.
  unfold _get_subscription_url, subscription_url_claimed, parsed_host.
  intros H.
  destruct (PyStr.truthy (XUI_SUBSCRIPTION_HOST cfg)); [reflexivity|].
  destruct (PyStr.truthy (XUI_SUBSCRIPTION_PORT cfg)).
  - destruct H as [H | [H | H]]; try discriminate.
    cbv zeta. rewrite (host_for_port_override_parses _ H). reflexivity.
  - cbv zeta. rewrite host_for_fallback_parses. reflexivity.
Qed.

End UrlRules.

(** ** The claims at concrete inputs *)

Lemma login_cycles_witness :
  _login cfg_inbound1 (scripted three_answers) logged_out =
  (true,
   mkService true
     [POST_login (base cfg_inbound1 ++ "/login") AsJson;
      POST_login (base cfg_inbound1 ++ "/xui/login") AsJson;
      POST_login (base cfg_inbound1 ++ "/api/login") AsJson]).
Proof.
  apply (proj2 (proj2 (login_cycles_through_candidates cfg_inbound1
                         (scripted three_answers)))
           logged_out (mkResponse 404 NotJson) (mkResponse 404 NotJson)
           (mkResponse 200 (ok_body [])) None []);
    reflexivity.
Defined.

Lemma login_connection_error_witness :
  login_loop cfg_inbound1
    (scripted [Returned (mkResponse 404 NotJson); Raised ConnectionError])
    ["/xui/login"; "/api/login"; "/login/"]
    (mkService false [POST_login (base cfg_inbound1 ++ "/login") AsJson]) =
  (false,
   mkService false
     [POST_login (base cfg_inbound1 ++ "/login") AsJson;
      POST_login (base cfg_inbound1 ++ "/xui/login") AsJson]).
Proof.
  apply (proj1 (login_connection_error_aborts_timeout_continues cfg_inbound1
                  (scripted [Returned (mkResponse 404 NotJson);
                             Raised ConnectionError]))
           "/xui/login" ["/api/login"; "/login/"]
           (mkService false [POST_login (base cfg_inbound1 ++ "/login") AsJson])).
  reflexivity.
Defined.

Lemma one_is_not_zero : 1 <> 0.
Proof. discriminate. Qed.

Lemma find_user_by_username_witness :
  fst (find_user_by_username cfg_inbound1
         (fixed_panel [vmess_inbound mixed_clients] accepted) "bob" None
         logged_in) =
  Some (mkFound "bob" "s5" None "https://panel.example.com:2096/sub/s5" 1).
Proof.
  apply (proj1 (find_user_by_username_first_usable cfg_inbound1
                  (fixed_panel [vmess_inbound mixed_clients] accepted)
                  "bob" None 1 logged_in [vmess_inbound mixed_clients]
                  mixed_clients eq_refl eq_refl eq_refl one_is_not_zero
                  eq_refl)).
Defined.

(** C6 fails on a client list whose only record for the queried email has
    no [subId]: the record exists and [None] is returned. *)
Lemma find_user_by_username_misses_record_without_sub_id :
  ~ finds_every_email_match cfg_inbound1
      (fixed_panel [vmess_inbound [bob_without_sub_id]] accepted)
      "bob" None [bob_without_sub_id] logged_in.
Proof.
  intros [H _].
  destruct H as (f & Hf & _).
  - exists bob_without_sub_id. split; [left; reflexivity | reflexivity].
  - vm_compute in Hf. discriminate.
Qed.

Lemma get_all_user_subscriptions_witness :
  lists_owned_clients device_label cfg_inbound1
    (fixed_panel [vmess_inbound mixed_clients] accepted) 7 (Some "alice")
    mixed_clients logged_in.
Proof.
  apply (get_all_user_subscriptions_owned_in_order cfg_inbound1
           (fixed_panel [vmess_inbound mixed_clients] accepted) 7
           (Some "alice") 1 logged_in [vmess_inbound mixed_clients]
           mixed_clients eq_refl eq_refl eq_refl one_is_not_zero eq_refl).
Defined.

(** C4 fails on the email ["alice_"] with base username ["alice"]: the
    remainder after the prefix is empty and the label is the email. *)
Lemma get_all_user_subscriptions_empty_remainder :
  ~ lists_owned_clients device_label_claimed cfg_inbound1
      (fixed_panel [vmess_inbound [account "alice_" "s9" "7"]] accepted)
      7 (Some "alice") [account "alice_" "s9" "7"] logged_in.
Proof.
  unfold lists_owned_clients. vm_compute. discriminate.
Qed.

Lemma all_taken_by_check clients username device_name :
  forallb (fun n => taken clients (device_key username device_name (Z.of_nat n)))
          (seq 2 99) = true ->
  forall j, 2 <= j <= 100 ->
            taken clients (device_key username device_name j) = true.
Proof.
  intros H j Hj. rewrite forallb_forall in H.
  specialize (H (Z.to_nat j)). rewrite Z2Nat.id in H by lia.
  apply H. apply in_seq. lia.
Qed.

Lemma create_user_probes_witness :
  rejects_101st_device cfg_inbound1
    (fixed_panel [vmess_inbound alice_phones] accepted).
Proof.
  unfold rejects_101st_device.
  rewrite (proj2 (create_user_probes_device_keys cfg_inbound1
                    (fixed_panel [vmess_inbound alice_phones] accepted)
                    rnd1 7 "alice" "phone" logged_in
                    [vmess_inbound alice_phones] 1 alice_phones
                    eq_refl eq_refl eq_refl (fun _ => eq_refl) eq_refl
                    one_is_not_zero eq_refl eq_refl)
            (all_taken_by_check alice_phones "alice" "phone" eq_refl)).
  reflexivity.
Defined.

(** C2 fails when no inbound id is configured: the lookups read no inbound,
    so with [alice_phone] ... [alice_phone_100] on the panel the key
    [alice_phone] is submitted and nothing is probed, whether the panel
    accepts the client or refuses it as a duplicate. *)
Lemma create_user_without_inbound_id_probes_nothing :
  ~ rejects_101st_device cfg_no_inbound
      (fixed_panel [vmess_inbound alice_phones] accepted) /\
  ~ rejects_101st_device cfg_no_inbound
      (fixed_panel [vmess_inbound alice_phones] refused_duplicate).
Proof.
  unfold rejects_101st_device. split; vm_compute; discriminate.
Qed.

Lemma create_user_without_inbound_witness :
  fst (create_user cfg_no_inbound (fixed_panel no_usable_inbounds accepted)
         rnd1 7 (Some "alice") (Some "phone") logged_out) = Some ReturnsNone.
Proof.
  apply (create_user_without_inbound_returns_none cfg_no_inbound
           (fixed_panel no_usable_inbounds accepted) rnd1 7 "alice"
           (Some "phone") logged_out eq_refl eq_refl (fun _ => eq_refl)).
Defined.

(** C5 fails: with no inbound id configured and no enabled inbound on the
    panel, the result of [create_user] is [None], which carries no tag. *)
Lemma create_user_without_inbound_is_untagged :
  ~ returns_tagged cfg_no_inbound (fixed_panel no_usable_inbounds accepted)
      rnd1 7 (Some "alice") None logged_in.
Proof.
  intros (r & Hr & Ht). vm_compute in Hr. injection Hr as <-. discriminate.
Qed.

Lemma create_user_twice_witness :
  second_call_finds_first cfg_inbound1 (storing_panel [vmess_inbound []])
    rnd1 rnd2 7 "alice" logged_in.
Proof.
  apply (create_user_twice_finds_first cfg_inbound1
           (storing_panel [vmess_inbound []]) rnd1 rnd2 7 "alice" logged_in 1
           [vmess_inbound []] []
           [vmess_inbound [client_data cfg_inbound1 rnd1 7 "alice"]]
           (mkResponse 200 (ok_body [])) None []
           eq_refl eq_refl eq_refl eq_refl one_is_not_zero eq_refl eq_refl
           (fun c (H : In c []) => match H with end)
           eq_refl eq_refl eq_refl eq_refl eq_refl).
Defined.

(** C7 fails when no inbound id is configured: the second call finds no
    inbound to look the username up in and submits a second client.  On a
    panel that stores it the second call returns a second success
    dictionary; on a panel that refuses the repeated email the second call
    recovers the URL from the error, after the submission. *)
Lemma create_user_twice_without_inbound_id :
  ~ second_call_finds_first cfg_no_inbound (storing_panel [vmess_inbound []])
      rnd1 rnd2 7 "alice" logged_in /\
  ~ second_call_finds_first cfg_no_inbound (vetoing_panel [vmess_inbound []])
      rnd1 rnd2 7 "alice" logged_in.
Proof.
  split.
  - intros (uuid & sub_id & inbound_id & url & total_gb & s1 & s2
            & H1 & H2 & _).
    vm_compute in H1. injection H1 as <- <- <- <- <- <-.
    vm_compute in H2. discriminate.
  - intros (uuid & sub_id & inbound_id & url & total_gb & s1 & s2
            & H1 & H2 & H3).
    vm_compute in H1. injection H1 as <- <- <- <- <- <-.
    vm_compute in H2. injection H2 as <-.
    vm_compute in H3. discriminate.
Qed.

(** C1.  No inbound id is configured, the panel lists one inbound with the
    accounts [alice] and [alice_phone], and answers [addClient] for the key
    [alice_phone] with "Duplicate email: alice_phone".  [create_user]
    looks up [alice], the bare username, and returns the URL of that
    account; a lookup of the submitted key [alice_phone] in the same
    inbound finds the account with the other URL. *)
Theorem create_user_requeries_bare_username :
  let panel := fixed_panel [vmess_inbound alice_two] refused_duplicate in
  let after :=
    snd (create_user cfg_no_inbound panel rnd1 7 (Some "alice")
           (Some "phone") logged_in) in
  fst (create_user cfg_no_inbound panel rnd1 7 (Some "alice") (Some "phone")
         logged_in) =
  Some (Dict_username_exists "alice" "https://panel.example.com:2096/sub/s0") /\
  In (POST_addClient (add_client_url cfg_no_inbound) (Some 1)
        (client_data cfg_no_inbound rnd1 7 "alice_phone")) (sent after) /\
  indicates_existing "Duplicate email: alice_phone" = true /\
  option_map found_subscription_url
    (fst (find_user_by_username cfg_no_inbound panel "alice_phone" (Some 1)
            after)) = Some "https://panel.example.com:2096/sub/s1".
Proof.
  vm_compute. repeat split; try reflexivity. right. left. reflexivity.
Qed.

(** The three URL examples of the specification. *)
Lemma subscription_url_examples :
  _get_subscription_url
    (mkConfig "https://panel.example.com:54321/admin" "1.2.3.4:2096" ""
       "vmess" 100 None) "Ab12_-xyz"
  = "https://1.2.3.4:2096/sub/Ab12_-xyz" /\
  _get_subscription_url
    (mkConfig "https://panel.example.com:54321/admin" "" "2096"
       "vmess" 100 None) "Ab12_-xyz"
  = "https://panel.example.com:2096/sub/Ab12_-xyz" /\
  _get_subscription_url
    (mkConfig "https://panel.example.com/admin" "" "" "vmess" 100 None)
    "Ab12_-xyz"
  = "https://panel.example.com:2096/sub/Ab12_-xyz".
Proof. repeat split; reflexivity. Qed.

(** C3.  With only the subscription port configured and the base URL
    [https://panel.example.com/a:b], [_get_subscription_url] keeps the
    path in the host, while the fallback rule on the same base URL, and
    the rule as the specification words it, give the host
    [panel.example.com]. *)
Theorem subscription_url_keeps_path_before_colon :
  _get_subscription_url cfg_colon_in_path "Ab12_-xyz" =
  "https://panel.example.com/a:2096/sub/Ab12_-xyz" /\
  subscription_url_claimed cfg_colon_in_path "Ab12_-xyz" =
  "https://panel.example.com:2096/sub/Ab12_-xyz" /\
  _get_subscription_url cfg_colon_in_path_fallback "Ab12_-xyz" =
  "https://panel.example.com:2096/sub/Ab12_-xyz" /\
  _get_subscription_url cfg_colon_in_path "Ab12_-xyz" <>
  subscription_url_claimed cfg_colon_in_path "Ab12_-xyz".
Proof.
  repeat split; try reflexivity. vm_compute. discriminate.
Qed.

(** * Further properties of the service *)

(** ** [_login] and [_ensure_authenticated] *)

Section LoginMore.

Variable cfg : Config.
Variable panel : Panel.

Lemma login_loop_flag endpoints :
  forall s,
    _authenticated (snd (login_loop cfg panel endpoints s)) =
    (fst (login_loop cfg panel endpoints s) || _authenticated s)%bool.
Proof.
  induction endpoints as [|e rest IH]; intros s; cbn [login_loop].
  - reflexivity.
  - unfold send.
    destruct (panel (sent s) (POST_login (base cfg ++ e) AsJson)) as [r|[| |]];
      try (rewrite IH; reflexivity); try reflexivity.
    destruct (status_code r =? 200).
    + destruct (body r) as [| |[|] m o];
        try (rewrite IH; reflexivity); reflexivity.
    + destruct (status_code r =? 404); [rewrite IH; reflexivity|].
      cbn [sent _authenticated].
      destruct (panel _ (POST_login (base cfg ++ e) AsForm)) as [r2|[| |]];
        try (rewrite IH; reflexivity); try reflexivity.
      destruct (status_code r2 =? 200); [reflexivity | rewrite IH; reflexivity].
Qed.

(** X1.  [_login] sets the flag exactly when it returns [True]; when it
    returns [False] the flag keeps the value it had, so a failed login
    never logs an authenticated service out. *)
Theorem login_flag_follows_result s :
  _authenticated (snd (_login cfg panel s)) =
  (fst (_login cfg panel s) || _authenticated s)%bool.
Proof. apply login_loop_flag. Qed.

Lemma login_request_to_cons e rest q :
  login_request_to cfg rest q -> login_request_to cfg (e :: rest) q.
Proof.
  intros (e' & enc & Hin & ->). exists e', enc. split; [right; exact Hin|].
  reflexivity.
Qed.

Lemma login_loop_trace endpoints :
  forall s,
  exists extra,
    sent (snd (login_loop cfg panel endpoints s)) = (sent s ++ extra)%list /\
    (List.length extra <= 2 * List.length endpoints)%nat /\
    (endpoints <> [] -> 1 <= List.length extra)%nat /\
    Forall (login_request_to cfg endpoints) extra.
Proof.
  induction endpoints as [|e rest IH]; intros s.
  - exists []. cbn. rewrite app_nil_r. repeat split; auto. congruence.
  - assert (Hj : login_request_to cfg (e :: rest)
                   (POST_login (base cfg ++ e) AsJson))
      by (exists e, AsJson; split; [left|]; reflexivity).
    assert (Hf : login_request_to cfg (e :: rest)
                   (POST_login (base cfg ++ e) AsForm))
      by (exists e, AsForm; split; [left|]; reflexivity).
    assert (Hstop1 : forall b,
      exists extra,
        sent (mkService b (sent s ++ [POST_login (base cfg ++ e) AsJson])%list)
        = (sent s ++ extra)%list /\
        (List.length extra <= 2 * List.length (e :: rest))%nat /\
        (e :: rest <> [] -> 1 <= List.length extra)%nat /\
        Forall (login_request_to cfg (e :: rest)) extra).
    { intros b. exists [POST_login (base cfg ++ e) AsJson]. cbn [sent].
      repeat split; cbn; try lia. constructor; [exact Hj | constructor]. }
    assert (Hstop2 : forall b,
      exists extra,
        sent (mkService b
                ((sent s ++ [POST_login (base cfg ++ e) AsJson]) ++
                 [POST_login (base cfg ++ e) AsForm])%list)
        = (sent s ++ extra)%list /\
        (List.length extra <= 2 * List.length (e :: rest))%nat /\
        (e :: rest <> [] -> 1 <= List.length extra)%nat /\
        Forall (login_request_to cfg (e :: rest)) extra).
    { intros b. exists [POST_login (base cfg ++ e) AsJson;
                        POST_login (base cfg ++ e) AsForm]. cbn [sent].
      rewrite <- app_assoc.
      repeat split; cbn; try lia.
      constructor; [exact Hj | constructor; [exact Hf | constructor]]. }
    assert (Hnext1 :
      exists extra,
        sent (snd (login_loop cfg panel rest
                (mkService (_authenticated s)
                   (sent s ++ [POST_login (base cfg ++ e) AsJson])%list)))
        = (sent s ++ extra)%list /\
        (List.length extra <= 2 * List.length (e :: rest))%nat /\
        (e :: rest <> [] -> 1 <= List.length extra)%nat /\
        Forall (login_request_to cfg (e :: rest)) extra).
    { destruct (IH (mkService (_authenticated s)
                      (sent s ++ [POST_login (base cfg ++ e) AsJson])%list))
        as (extra & He & Hlen & _ & Hall).
      exists (POST_login (base cfg ++ e) AsJson :: extra).
      rewrite He. cbn [sent]. rewrite <- app_assoc.
      repeat split; cbn [List.length app]; try lia.
      constructor; [exact Hj|].
      eapply Forall_impl; [|exact Hall]. intros q. apply login_request_to_cons. }
    assert (Hnext2 :
      exists extra,
        sent (snd (login_loop cfg panel rest
                (mkService (_authenticated s)
                   ((sent s ++ [POST_login (base cfg ++ e) AsJson]) ++
                    [POST_login (base cfg ++ e) AsForm])%list)))
        = (sent s ++ extra)%list /\
        (List.length extra <= 2 * List.length (e :: rest))%nat /\
        (e :: rest <> [] -> 1 <= List.length extra)%nat /\
        Forall (login_request_to cfg (e :: rest)) extra).
    { destruct (IH (mkService (_authenticated s)
                      ((sent s ++ [POST_login (base cfg ++ e) AsJson]) ++
                       [POST_login (base cfg ++ e) AsForm])%list))
        as (extra & He & Hlen & _ & Hall).
      exists (POST_login (base cfg ++ e) AsJson
              :: POST_login (base cfg ++ e) AsForm :: extra).
      rewrite He. cbn [sent]. rewrite <- !app_assoc.
      repeat split; cbn [List.length app]; try lia.
      constructor; [exact Hj|]. constructor; [exact Hf|].
      eapply Forall_impl; [|exact Hall]. intros q. apply login_request_to_cons. }
    cbn [login_loop]. unfold send, set_authenticated.
    destruct (panel (sent s) (POST_login (base cfg ++ e) AsJson)) as [r|[| |]];
      try exact Hnext1; try apply Hstop1.
    destruct (status_code r =? 200).
    + destruct (body r) as [| |[|] m o]; try exact Hnext1; apply Hstop1.
    + destruct (status_code r =? 404); [exact Hnext1|].
      cbn [sent _authenticated].
      destruct (panel _ (POST_login (base cfg ++ e) AsForm)) as [r2|[| |]];
        try exact Hnext2; try apply Hstop2.
      destruct (status_code r2 =? 200); [apply Hstop2 | exact Hnext2].
Qed.

(** X2.  Whatever the panel answers, [_login] sends between one and eight
    requests, all of them login requests to one of the four candidate
    paths under the base URL, and nothing else. *)
Theorem login_sends_only_bounded_logins s :
  exists extra,
    sent (snd (_login cfg panel s)) = (sent s ++ extra)%list /\
    (1 <= List.length extra <= 8)%nat /\
    Forall (login_request_to cfg login_endpoints) extra.
Proof.
  destruct (login_loop_trace login_endpoints s) as (extra & He & Hlen & Hone & Hall).
  exists extra. split; [exact He|]. split; [|exact Hall].
  split; [apply Hone; discriminate | exact Hlen].
Qed.

(** X3.  When the JSON request of a candidate is answered with a status
    other than 200 and 404, the same candidate is retried with form data,
    and any 200 answer to the retry counts as success: the body of that
    answer is not read, so even a body that reports failure logs in. *)
Theorem login_form_retry_accepts_any_200 endpoint rest s r r2 :
  panel (sent s) (try_json cfg endpoint) = Returned r ->
  status_code r <> 200 ->
  status_code r <> 404 ->
  panel (sent s ++ [try_json cfg endpoint])%list (try_form cfg endpoint)
    = Returned r2 ->
  status_code r2 = 200 ->
  login_loop cfg panel (endpoint :: rest) s =
  (true, mkService true
           (sent s ++ [try_json cfg endpoint; try_form cfg endpoint])%list).
Proof.
  intros Hp H200 H404 Hf Hs2. cbn [login_loop]. unfold send.
  fold (try_json cfg endpoint). fold (try_form cfg endpoint).
  rewrite Hp. cbn [sent _authenticated].
  destruct (Z.eqb_spec (status_code r) 200) as [|_]; [contradiction|].
  destruct (Z.eqb_spec (status_code r) 404) as [|_]; [contradiction|].
  rewrite Hf, Hs2, <- app_assoc. reflexivity.
Qed.

(** X4.  A 200 answer to the JSON request whose body is a JSON object
    without a true success flag, or JSON that is not an object, does not
    log in and is not retried with form data: the loop goes on with the
    next candidate after this single request. *)
Theorem login_200_without_success_moves_on endpoint rest s r :
  panel (sent s) (try_json cfg endpoint) = Returned r ->
  status_code r = 200 ->
  (body r = JsonOther \/ exists m o, body r = JsonObj false m o) ->
  login_loop cfg panel (endpoint :: rest) s =
  login_loop cfg panel rest
    (mkService (_authenticated s) (sent s ++ [try_json cfg endpoint])%list).
Proof.
  intros Hp Hs Hb. cbn [login_loop]. unfold send.
  fold (try_json cfg endpoint). rewrite Hp, Hs.
  destruct Hb as [Hb | (m & o & Hb)]; rewrite Hb; reflexivity.
Qed.

(** X5.  After [_ensure_authenticated] has returned [True], calling it
    again returns [True] without sending anything. *)
Theorem ensure_authenticated_idempotent s s1 :
  _ensure_authenticated cfg panel s = (true, s1) ->
  _ensure_authenticated cfg panel s1 = (true, s1).
Proof.
  intros H. apply ensure_authenticated_logged_in.
  exact (ensure_authenticated_true cfg panel s s1 H).
Qed.

End LoginMore.

Lemma login_form_retry_witness :
  _login cfg_inbound1 (scripted server_error_then_refusal) logged_out =
  (true,
   mkService true
     [try_json cfg_inbound1 "/login"; try_form cfg_inbound1 "/login"]).
Proof.
  apply (login_form_retry_accepts_any_200 cfg_inbound1
           (scripted server_error_then_refusal) "/login"
           ["/xui/login"; "/api/login"; "/login/"] logged_out
           (mkResponse 500 NotJson)
           (mkResponse 200 (JsonObj false (Some "wrong password") [])));
    try reflexivity; discriminate.
Defined.

Lemma login_200_without_success_witness :
  login_loop cfg_inbound1
    (scripted [Returned (mkResponse 200 (JsonObj false (Some "wrong password") []))])
    ["/login/"] logged_out =
  (false, mkService false [try_json cfg_inbound1 "/login/"]).
Proof.
  rewrite (login_200_without_success_moves_on cfg_inbound1
             (scripted [Returned (mkResponse 200
                                    (JsonObj false (Some "wrong password") []))])
             "/login/" [] logged_out
             (mkResponse 200 (JsonObj false (Some "wrong password") []))
             eq_refl eq_refl
             (or_intror (ex_intro _ (Some "wrong password")
                           (ex_intro _ [] eq_refl)))).
  reflexivity.
Defined.

Lemma ensure_authenticated_idempotent_witness :
  _ensure_authenticated cfg_inbound1 (scripted three_answers)
    (snd (_ensure_authenticated cfg_inbound1 (scripted three_answers) logged_out))
  = (true,
     snd (_ensure_authenticated cfg_inbound1 (scripted three_answers) logged_out)).
Proof.
  apply (ensure_authenticated_idempotent cfg_inbound1 (scripted three_answers)
           logged_out). reflexivity.
Defined.

(** ** Strings *)

Section StringFacts.

Lemma append_assoc (a b c : string) : (a ++ b) ++ c = a ++ (b ++ c).
Proof.
  induction a as [|x a IH]; cbn; [reflexivity|]. rewrite IH. reflexivity.
Qed.

Lemma append_inj_l (p a b : string) : p ++ a = p ++ b -> a = b.
Proof.
  induction p as [|x p IH]; cbn; intros H; [exact H|].
  injection H as H. apply IH. exact H.
Qed.

Lemma append_nil_r (a : string) : a ++ "" = a.
Proof. induction a as [|x a IH]; cbn; [reflexivity|]. rewrite IH. reflexivity. Qed.


Lemma startswith_append (p s : string) : PyStr.startswith (p ++ s) p = true.
Proof.
  induction p as [|x p IH]; cbn; [destruct s; reflexivity|].
  rewrite Ascii.eqb_refl. exact IH.
Qed.


End StringFacts.

(** ** Lookups *)

Section LookupMore.

Variable cfg : Config.
Variable panel : Panel.

Lemma first_enabled_find protocol inbounds :
  first_enabled protocol inbounds = find (qualifies protocol) inbounds.
Proof.
  induction inbounds as [|ib rest IH]; [reflexivity|].
  cbn [first_enabled find]. unfold qualifies at 1.
  destruct (ib_enable ib); cbn [andb]; [|exact IH].
  destruct (PyStr.truthy protocol); cbn [andb negb orb].
  - destruct (String.eqb (default_of "" (ib_protocol ib)) protocol);
      [reflexivity | exact IH].
  - reflexivity.
Qed.

(** X6.  On an authenticated service and a panel that lists its inbounds,
    [_get_existing_inbound] returns the first inbound of the list, in list
    order, that is enabled and has the requested protocol; with an empty
    protocol the first enabled inbound of any protocol.  It returns [None]
    when the list has no such inbound. *)
Theorem get_existing_inbound_first_qualifying protocol s inbounds :
  _authenticated s = true ->
  listed (panel (sent s) (listing cfg)) = Some inbounds ->
  fst (_get_existing_inbound cfg panel protocol s) =
  find (qualifies protocol) inbounds.
Proof.
  intros Ha Hl. unfold _get_existing_inbound.
  rewrite (ensure_authenticated_logged_in cfg panel s Ha). cbn [negb].
  unfold send. unfold listing in Hl.
  destruct (panel (sent s) (GET_inbounds (list_url cfg))) as [r|e];
    cbn [listed] in Hl; [|discriminate].
  destruct (status_code r =? 200); [|discriminate]. cbn [negb].
  destruct (body r) as [| |ok m l]; try discriminate.
  injection Hl as ->.
  destruct inbounds as [|ib rest]; [reflexivity|].
  cbn [fst]. apply first_enabled_find.
Qed.

Lemma inbound_with_id_sound i inbounds ib :
  inbound_with_id i inbounds = Some ib -> ib_id ib = Some i.
Proof.
  induction inbounds as [|x rest IH]; cbn [inbound_with_id]; [discriminate|].
  unfold id_is. destruct (ib_id x) as [j|] eqn:Ej; [|exact IH].
  destruct (Z.eqb_spec j i) as [-> | _]; [|exact IH].
  intros H; injection H as <-. exact Ej.
Qed.

(** X7.  Whatever the panel answers and whatever the state of the
    service, an inbound returned by [get_inbound_clients] carries the id
    that was asked for. *)
Theorem get_inbound_clients_returns_requested_id i s ib :
  fst (get_inbound_clients cfg panel i s) = Some ib -> ib_id ib = Some i.
Proof.
  unfold get_inbound_clients.
  destruct (_ensure_authenticated cfg panel s) as [[|] s1]; cbn [negb];
    [|discriminate].
  unfold send.
  destruct (panel (sent s1) (GET_inbounds (list_url cfg))) as [r|e];
    [|discriminate].
  destruct (negb (status_code r =? 200)); [discriminate|].
  destruct (body r) as [| |ok m inbounds]; try discriminate.
  cbn [fst]. apply inbound_with_id_sound.
Qed.

Lemma scan_clients_sound username i clients f :
  scan_clients cfg username i clients = Some f ->
  found_username f = username /\
  PyStr.truthy (found_sub_id f) = true /\
  found_subscription_url f = _get_subscription_url cfg (found_sub_id f) /\
  found_inbound_id f = i.
Proof.
  rewrite scan_clients_find.
  destruct (find (usable username) clients) as [c|] eqn:E; [|discriminate].
  apply find_some in E. destruct E as [_ Hu].
  unfold usable in Hu. apply andb_prop in Hu. destruct Hu as [_ Hs].
  cbn [option_map]. intros H; injection H as <-.
  unfold found_of. cbn. repeat split. exact Hs.
Qed.

(** X8.  Whatever the panel answers and whatever the state of the
    service, a dictionary returned by [find_user_by_username] carries the
    queried name, a non-empty [sub_id], the URL derived from that
    [sub_id], and the id of the inbound that was read, which is the given
    id, else the configured one, and is never 0. *)
Theorem find_user_by_username_sound username inbound_id s f :
  fst (find_user_by_username cfg panel username inbound_id s) = Some f ->
  found_username f = username /\
  PyStr.truthy (found_sub_id f) = true /\
  found_subscription_url f = _get_subscription_url cfg (found_sub_id f) /\
  check_id cfg inbound_id = Some (found_inbound_id f) /\
  found_inbound_id f <> 0.
Proof.
  unfold find_user_by_username, check_id.
  destruct (_ensure_authenticated cfg panel s) as [[|] s1]; cbn [negb];
    [|discriminate].
  destruct (match inbound_id with
            | Some i => Some i
            | None => DEFAULT_INBOUND_ID cfg
            end) as [i|]; [|discriminate].
  destruct (Z.eqb_spec i 0) as [|Hi]; [discriminate|].
  destruct (get_inbound_clients cfg panel i s1) as [[inbound|] s2];
    [|discriminate].
  destruct (ib_settings inbound) as [|clients]; [discriminate|].
  cbn [fst]. intros H. apply scan_clients_sound in H.
  destruct H as (H1 & H2 & H3 & H4). subst i. auto.
Qed.

(** X9.  When no default inbound is configured, or the configured id is
    0, an authenticated service answers a lookup by email without an
    explicit inbound, the list of an owner's subscriptions and the single
    subscription lookup with nothing, and sends no request for them. *)
Theorem lookups_without_default_inbound telegram_user_id username email_key s :
  _authenticated s = true ->
  DEFAULT_INBOUND_ID cfg = None \/ DEFAULT_INBOUND_ID cfg = Some 0 ->
  find_user_by_username cfg panel email_key None s = (None, s) /\
  find_user_by_username cfg panel email_key (Some 0) s = (None, s) /\
  get_all_user_subscriptions cfg panel telegram_user_id username s = ([], s) /\
  get_user_subscription cfg panel telegram_user_id username s = (None, s).
Proof.
  intros Ha Hd.
  assert (Hall :
    get_all_user_subscriptions cfg panel telegram_user_id username s = ([], s)).
  { unfold get_all_user_subscriptions.
    rewrite (ensure_authenticated_logged_in cfg panel s Ha). cbn [negb].
    destruct Hd as [-> | ->]; reflexivity. }
  repeat split.
  - apply find_user_by_username_no_inbound; [exact Ha|]. exact Hd.
  - apply find_user_by_username_no_inbound; [exact Ha|]. right. reflexivity.
  - exact Hall.
  - unfold get_user_subscription. rewrite Hall. reflexivity.
Qed.

Lemma get_all_user_subscriptions_cases telegram_user_id username s :
  (fst (get_all_user_subscriptions cfg panel telegram_user_id username s) = [])
  \/ exists clients,
       fst (get_all_user_subscriptions cfg panel telegram_user_id username s) =
       map (subscription_of cfg (device_label (if_truthy username)))
           (filter (owned_with_sub_id telegram_user_id) clients).
Proof.
  unfold get_all_user_subscriptions.
  destruct (_ensure_authenticated cfg panel s) as [[|] s1]; cbn [negb];
    [|left; reflexivity].
  destruct (DEFAULT_INBOUND_ID cfg) as [i|]; [|left; reflexivity].
  destruct (i =? 0); [left; reflexivity|].
  destruct (get_inbound_clients cfg panel i s1) as [[inbound|] s2];
    [|left; reflexivity].
  destruct (ib_settings inbound) as [|clients]; [left; reflexivity|].
  right. exists clients. cbn [fst].
  rewrite collect_subscriptions_filter. reflexivity.
Qed.

(** X10.  Whatever the panel answers and whatever the state of the
    service, every entry that [get_all_user_subscriptions] returns has a
    non-empty [sub_id] and the URL derived from it, and its device name
    is empty only when its email is empty. *)
Theorem get_all_user_subscriptions_entries_usable telegram_user_id username s :
  Forall
    (fun e =>
       PyStr.truthy (s_sub_id e) = true /\
       s_subscription_url e = _get_subscription_url cfg (s_sub_id e) /\
       (s_device_name e = "" -> s_email e = ""))
    (fst (get_all_user_subscriptions cfg panel telegram_user_id username s)).
Proof.
  destruct (get_all_user_subscriptions_cases telegram_user_id username s)
    as [-> | (clients & ->)]; [constructor|].
  apply Forall_map. apply Forall_forall. intros c Hc.
  apply filter_In in Hc. destruct Hc as [_ Hc].
  unfold owned_with_sub_id in Hc. apply andb_prop in Hc. destruct Hc as [_ Hs].
  unfold subscription_of. cbn. split; [exact Hs|]. split; [reflexivity|].
  rewrite <- device_name_of_label. unfold device_name_of.
  destruct (PyStr.truthy _) eqn:Et; [|auto].
  intros H. rewrite H in Et. discriminate.
Qed.

Lemma entry_core_subscription_of label1 label2 c :
  entry_core (subscription_of cfg label1 c) =
  entry_core (subscription_of cfg label2 c).
Proof. reflexivity. Qed.

(** X11.  The [username] argument of [get_all_user_subscriptions] only
    changes the device names: the emails, URLs and sub ids of the entries,
    their order, and the requests sent do not depend on it.  So
    [get_user_subscription] returns the same URL for every [username]:
    it looks the owner up by Telegram id alone. *)
Theorem subscriptions_do_not_depend_on_username
    telegram_user_id username1 username2 s :
  map entry_core
    (fst (get_all_user_subscriptions cfg panel telegram_user_id username1 s)) =
  map entry_core
    (fst (get_all_user_subscriptions cfg panel telegram_user_id username2 s)) /\
  snd (get_all_user_subscriptions cfg panel telegram_user_id username1 s) =
  snd (get_all_user_subscriptions cfg panel telegram_user_id username2 s) /\
  get_user_subscription cfg panel telegram_user_id username1 s =
  get_user_subscription cfg panel telegram_user_id username2 s.
Proof.
  assert (H :
    map entry_core
      (fst (get_all_user_subscriptions cfg panel telegram_user_id username1 s)) =
    map entry_core
      (fst (get_all_user_subscriptions cfg panel telegram_user_id username2 s)) /\
    snd (get_all_user_subscriptions cfg panel telegram_user_id username1 s) =
    snd (get_all_user_subscriptions cfg panel telegram_user_id username2 s)).
  { unfold get_all_user_subscriptions.
    destruct (_ensure_authenticated cfg panel s) as [[|] s1]; cbn [negb];
      [|split; reflexivity].
    destruct (DEFAULT_INBOUND_ID cfg) as [i|]; [|split; reflexivity].
    destruct (i =? 0); [split; reflexivity|].
    destruct (get_inbound_clients cfg panel i s1) as [[inbound|] s2];
      [|split; reflexivity].
    destruct (ib_settings inbound) as [|clients]; [split; reflexivity|].
    cbn [fst snd]. split; [|reflexivity].
    rewrite !collect_subscriptions_filter. cbn [app].
    rewrite !map_map. apply map_ext. intros c.
    apply entry_core_subscription_of. }
  destruct H as [Hm Hs]. split; [exact Hm|]. split; [exact Hs|].
  unfold get_user_subscription.
  destruct (get_all_user_subscriptions cfg panel telegram_user_id username1 s)
    as [l1 s1].
  destruct (get_all_user_subscriptions cfg panel telegram_user_id username2 s)
    as [l2 s2].
  cbn [fst snd] in Hm, Hs. subst s2.
  destruct l1 as [|a l1], l2 as [|b l2]; cbn [map] in Hm; try discriminate;
    [reflexivity|].
  injection Hm as _ Hu _ _. rewrite Hu. reflexivity.
Qed.

End LookupMore.

(** ** The subscription URL *)

Section UrlMore.

Variable cfg : Config.

(** The part of the URL between the scheme and ["/sub/"]. *)
Lemma subscription_url_shape :
  exists authority,
    forall sub_id,
      _get_subscription_url cfg sub_id =
      "https://" ++ authority ++ "/sub/" ++ sub_id.
Proof.
  unfold _get_subscription_url.
  destruct (PyStr.truthy (XUI_SUBSCRIPTION_HOST cfg)).
  - exists (XUI_SUBSCRIPTION_HOST cfg). reflexivity.
  - destruct (PyStr.truthy (XUI_SUBSCRIPTION_PORT cfg)).
    + exists (host_for_port_override (strip_schemes (XUI_URL cfg)) ++ ":"
              ++ XUI_SUBSCRIPTION_PORT cfg).
      intros sub_id. cbv zeta. rewrite !append_assoc. reflexivity.
    + exists (host_for_fallback (strip_schemes (XUI_URL cfg)) ++ ":2096").
      intros sub_id. cbv zeta. rewrite !append_assoc. reflexivity.
Qed.

(** X12.  For every configuration the subscription URL is
    [https://], an authority that depends on the configuration only,
    [/sub/] and the sub id, in this order; so the scheme is [https] even
    when the panel URL is [http], the sub id ends the URL, and two
    different sub ids never give the same URL. *)
Theorem subscription_url_determines_sub_id :
  (exists authority,
      forall sub_id,
        _get_subscription_url cfg sub_id =
        "https://" ++ authority ++ "/sub/" ++ sub_id) /\
  (forall a b,
      _get_subscription_url cfg a = _get_subscription_url cfg b -> a = b).
Proof.
  split; [exact subscription_url_shape|].
  destruct subscription_url_shape as (authority & H).
  intros a b. rewrite !H. intros E.
  apply append_inj_l in E. apply append_inj_l in E. apply append_inj_l in E.
  exact E.
Qed.


End UrlMore.

Lemma get_existing_inbound_witness :
  fst (_get_existing_inbound cfg_no_inbound
         (fixed_panel two_protocols accepted) "vmess" logged_in) =
  Some (mkInbound (Some 3) true (Some "vmess") (SettingsClients [])).
Proof.
  rewrite (get_existing_inbound_first_qualifying cfg_no_inbound
             (fixed_panel two_protocols accepted) "vmess" logged_in
             two_protocols eq_refl eq_refl).
  reflexivity.
Defined.

Lemma get_inbound_clients_witness :
  let inbound := mkInbound (Some 3) true (Some "vmess") (SettingsClients []) in
  fst (get_inbound_clients cfg_no_inbound (fixed_panel two_protocols accepted)
         3 logged_out) = Some inbound /\
  ib_id inbound = Some 3.
Proof.
  split; [reflexivity|].
  apply (get_inbound_clients_returns_requested_id cfg_no_inbound
           (fixed_panel two_protocols accepted) 3 logged_out).
  reflexivity.
Defined.

Lemma find_user_by_username_sound_witness :
  let f := mkFound "alice_phone" "s1" None
             "https://panel.example.com:2096/sub/s1" 1 in
  fst (find_user_by_username cfg_inbound1
         (fixed_panel [vmess_inbound mixed_clients] accepted)
         "alice_phone" None logged_out) = Some f /\
  (found_username f = "alice_phone" /\
   PyStr.truthy (found_sub_id f) = true /\
   found_subscription_url f = _get_subscription_url cfg_inbound1 (found_sub_id f) /\
   check_id cfg_inbound1 None = Some (found_inbound_id f) /\
   found_inbound_id f <> 0).
Proof.
  split; [reflexivity|].
  apply (find_user_by_username_sound cfg_inbound1
           (fixed_panel [vmess_inbound mixed_clients] accepted)
           "alice_phone" None logged_out).
  reflexivity.
Defined.

Lemma lookups_without_default_inbound_witness :
  find_user_by_username cfg_inbound0
    (fixed_panel [vmess_inbound mixed_clients] accepted) "alice" None logged_in
  = (None, logged_in) /\
  find_user_by_username cfg_inbound0
    (fixed_panel [vmess_inbound mixed_clients] accepted) "alice" (Some 0)
    logged_in = (None, logged_in) /\
  get_all_user_subscriptions cfg_inbound0
    (fixed_panel [vmess_inbound mixed_clients] accepted) 7 (Some "alice")
    logged_in = ([], logged_in) /\
  get_user_subscription cfg_inbound0
    (fixed_panel [vmess_inbound mixed_clients] accepted) 7 (Some "alice")
    logged_in = (None, logged_in).
Proof.
  apply (lookups_without_default_inbound cfg_inbound0
           (fixed_panel [vmess_inbound mixed_clients] accepted) 7
           (Some "alice") "alice" logged_in eq_refl (or_intror eq_refl)).
Defined.


(** ** The requests that the operations send *)

Section Traces.

Variable cfg : Config.
Variable panel : Panel.

Lemma after_listings_0 s :
  _authenticated s = true -> after_listings cfg 0 s = s.
Proof.
  destruct s as [a h]. cbn. intros ->. unfold after_listings. cbn.
  rewrite app_nil_r. reflexivity.
Qed.

Lemma after_listings_plus m n s :
  after_listings cfg n (after_listings cfg m s) = after_listings cfg (m + n) s.
Proof.
  unfold after_listings. cbn [sent]. rewrite <- app_assoc, repeat_app.
  reflexivity.
Qed.

Lemma ensure_authenticated_trace s :
  exists logins,
    sent (snd (_ensure_authenticated cfg panel s)) = (sent s ++ logins)%list /\
    (List.length logins <= 8)%nat /\
    Forall (login_request_to cfg login_endpoints) logins.
Proof.
  unfold _ensure_authenticated. destruct (negb (_authenticated s)).
  - destruct (login_loop_trace cfg panel login_endpoints s)
      as (extra & He & Hlen & _ & Hall).
    exists extra. repeat split; assumption.
  - exists []. cbn. rewrite app_nil_r. repeat split; [lia | constructor].
Qed.

Lemma get_inbound_clients_state i s :
  _authenticated s = true ->
  snd (get_inbound_clients cfg panel i s) = after_listings cfg 1 s.
Proof.
  intros Ha. unfold get_inbound_clients.
  rewrite (ensure_authenticated_logged_in cfg panel s Ha). cbn [negb].
  unfold send. rewrite Ha.
  destruct (panel (sent s) (GET_inbounds (list_url cfg))) as [r|e];
    [|reflexivity].
  destruct (negb (status_code r =? 200)); [reflexivity|].
  destruct (body r); reflexivity.
Qed.

Lemma get_existing_inbound_state protocol s :
  _authenticated s = true ->
  snd (_get_existing_inbound cfg panel protocol s) = after_listings cfg 1 s.
Proof.
  intros Ha. unfold _get_existing_inbound.
  rewrite (ensure_authenticated_logged_in cfg panel s Ha). cbn [negb].
  unfold send. rewrite Ha.
  destruct (panel (sent s) (GET_inbounds (list_url cfg))) as [r|e];
    [|reflexivity].
  destruct (negb (status_code r =? 200)); [reflexivity|].
  destruct (body r) as [| |ok m inbounds]; try reflexivity.
  destruct inbounds; reflexivity.
Qed.

Lemma find_user_by_username_state username inbound_id s :
  _authenticated s = true ->
  exists k, (k <= 1)%nat /\
    snd (find_user_by_username cfg panel username inbound_id s) =
    after_listings cfg k s.
Proof.
  intros Ha.
  assert (H0 : exists k, (k <= 1)%nat /\ s = after_listings cfg k s).
  { exists 0%nat. split; [lia|]. symmetry. apply after_listings_0. exact Ha. }
  unfold find_user_by_username.
  rewrite (ensure_authenticated_logged_in cfg panel s Ha). cbn [negb].
  destruct (match inbound_id with
            | Some i => Some i
            | None => DEFAULT_INBOUND_ID cfg
            end) as [i|]; [|exact H0].
  destruct (i =? 0); [exact H0|].
  pose proof (get_inbound_clients_state i s Ha) as Hs.
  destruct (get_inbound_clients cfg panel i s) as [[inbound|] s2];
    cbn [snd] in Hs; subst s2.
  - exists 1%nat. split; [lia|]. destruct (ib_settings inbound); reflexivity.
  - exists 1%nat. split; [lia | reflexivity].
Qed.

Lemma probe_loop_state username device_name fuel :
  forall counter s,
    _authenticated s = true ->
    exists k, (k <= fuel)%nat /\
      snd (probe_loop cfg panel fuel username device_name counter s) =
      after_listings cfg k s.
Proof.
  induction fuel as [|fuel IH]; intros counter s Ha; cbn [probe_loop].
  - exists 0%nat. split; [lia|]. symmetry. apply after_listings_0. exact Ha.
  - destruct (find_user_by_username_state
                (username ++ "_" ++ device_name ++ "_" ++ PyStr.str counter)
                None s Ha) as (k & Hk & Hs).
    destruct (find_user_by_username cfg panel _ None s) as [[f|] s1];
      cbn [snd] in Hs; subst s1.
    + destruct (counter + 1 >? 100).
      * exists k. split; [lia | reflexivity].
      * destruct (IH (counter + 1) (after_listings cfg k s) eq_refl)
          as (k' & Hk' & Hs').
        exists (k + k')%nat. split; [lia|].
        rewrite Hs'. apply after_listings_plus.
    + exists k. split; [lia | reflexivity].
Qed.

Lemma probe_loop_email username device_name fuel :
  forall counter s e s1,
    2 <= counter <= 100 ->
    probe_loop cfg panel fuel username device_name counter s =
    (Some (Use_email e), s1) ->
    exists n, 2 <= n <= 100 /\ e = device_key username device_name n.
Proof.
  induction fuel as [|fuel IH]; intros counter s e s1 Hc; cbn [probe_loop].
  - discriminate.
  - destruct (find_user_by_username cfg panel _ None s) as [[f|] s2].
    + destruct (Z.gtb_spec (counter + 1) 100) as [_ | Hle]; [discriminate|].
      apply IH. lia.
    + intros H. injection H as <- _. exists counter. split; [exact Hc|].
      reflexivity.
Qed.

Lemma choose_email_state username device_name s :
  _authenticated s = true ->
  exists k, (k <= 100)%nat /\
    snd (choose_email cfg panel username device_name s) =
    after_listings cfg k s.
Proof.
  intros Ha. unfold choose_email.
  destruct (if_truthy device_name) as [d|].
  - destruct (find_user_by_username_state (username ++ "_" ++ d) None s Ha)
      as (k & Hk & Hs).
    destruct (find_user_by_username cfg panel (username ++ "_" ++ d) None s)
      as [[f|] s1]; cbn [snd] in Hs; subst s1.
    + destruct (probe_loop_state username d probe_fuel 2
                  (after_listings cfg k s) eq_refl) as (k' & Hk' & Hs').
      exists (k + k')%nat. split; [unfold probe_fuel in Hk'; lia|].
      rewrite Hs'. apply after_listings_plus.
    + exists k. split; [lia | reflexivity].
  - destruct (find_user_by_username_state username None s Ha)
      as (k & Hk & Hs).
    destruct (find_user_by_username cfg panel username None s)
      as [[f|] s1]; cbn [snd] in Hs; subst s1;
      exists k; (split; [lia | reflexivity]).
Qed.

Lemma choose_email_shape username device_name s e s1 :
  choose_email cfg panel username device_name s = (Some (Use_email e), s1) ->
  email_shape username (if_truthy device_name) e.
Proof.
  unfold choose_email, email_shape.
  destruct (if_truthy device_name) as [d|].
  - destruct (find_user_by_username cfg panel (username ++ "_" ++ d) None s)
      as [[f|] s2].
    + intros H. right. eapply probe_loop_email; [|exact H]. lia.
    + intros H. injection H as <- _. left. reflexivity.
  - destruct (find_user_by_username cfg panel username None s) as [[f|] s2].
    + discriminate.
    + intros H. injection H as <- _. reflexivity.
Qed.

Lemma target_inbound_state s :
  _authenticated s = true ->
  exists k, (k <= 1)%nat /\
    snd (target_inbound cfg panel s) = after_listings cfg k s /\
    forall i ib, DEFAULT_INBOUND_ID cfg = Some i ->
                 fst (target_inbound cfg panel s) = Some ib ->
                 ib = Some i /\ k = 0%nat.
Proof.
  intros Ha. unfold target_inbound.
  destruct (DEFAULT_INBOUND_ID cfg) as [i|].
  - exists 0%nat. split; [lia|]. split.
    + symmetry. apply after_listings_0. exact Ha.
    + intros j ib Hj H. injection Hj as <-. injection H as <-. auto.
  - pose proof (get_existing_inbound_state (DEFAULT_PROTOCOL cfg) s Ha) as Hs.
    destruct (_get_existing_inbound cfg panel (DEFAULT_PROTOCOL cfg) s)
      as [[inbound|] s1]; cbn [snd] in Hs; subst s1;
      exists 1%nat; (split; [lia|]); (split; [reflexivity|]);
      intros; discriminate.
Qed.

Lemma submit_state rnd telegram_user_id username e inbound_id s :
  _authenticated s = true ->
  exists k, (k <= 1)%nat /\
    snd (submit cfg panel rnd telegram_user_id username e inbound_id s) =
    after_listings cfg k
      (mkService true
         (sent s ++ [POST_addClient (add_client_url cfg) inbound_id
                       (client_data cfg rnd telegram_user_id e)])%list) /\
    forall uuid sub_id ib url total_gb,
      fst (submit cfg panel rnd telegram_user_id username e inbound_id s) =
      Dict_success uuid sub_id ib url total_gb ->
      k = 0%nat /\ uuid = user_uuid rnd /\ sub_id = fresh_sub_id rnd /\
      ib = inbound_id /\ url = _get_subscription_url cfg (fresh_sub_id rnd) /\
      total_gb = DEFAULT_TOTAL_GB cfg.
Proof.
  intros Ha. unfold submit, send. rewrite Ha.
  set (q := POST_addClient (add_client_url cfg) inbound_id
              (client_data cfg rnd telegram_user_id e)).
  set (s1 := mkService true (sent s ++ [q])%list).
  assert (Hnone : exists k, (k <= 1)%nat /\
            snd (ReturnsNone, s1) = after_listings cfg k s1 /\
            forall uuid sub_id ib url total_gb,
              fst (ReturnsNone, s1) = Dict_success uuid sub_id ib url total_gb ->
              k = 0%nat /\ uuid = user_uuid rnd /\ sub_id = fresh_sub_id rnd /\
              ib = inbound_id /\
              url = _get_subscription_url cfg (fresh_sub_id rnd) /\
              total_gb = DEFAULT_TOTAL_GB cfg).
  { exists 0%nat. split; [lia|]. split; [|cbn; discriminate].
    symmetry. apply after_listings_0. reflexivity. }
  assert (Hrec : exists k, (k <= 1)%nat /\
            snd (recover_existing cfg panel username inbound_id s1) =
            after_listings cfg k s1 /\
            forall uuid sub_id ib url total_gb,
              fst (recover_existing cfg panel username inbound_id s1) =
              Dict_success uuid sub_id ib url total_gb ->
              k = 0%nat /\ uuid = user_uuid rnd /\ sub_id = fresh_sub_id rnd /\
              ib = inbound_id /\
              url = _get_subscription_url cfg (fresh_sub_id rnd) /\
              total_gb = DEFAULT_TOTAL_GB cfg).
  { unfold recover_existing.
    destruct (find_user_by_username_state username inbound_id s1 eq_refl)
      as (k & Hk & Hs).
    exists k. split; [exact Hk|].
    destruct (find_user_by_username cfg panel username inbound_id s1)
      as [[f|] s2]; cbn [snd fst] in *; (split; [exact Hs | discriminate]). }
  destruct (panel (sent s) q) as [r|ex]; [|exact Hnone].
  destruct (status_code r =? 200).
  - destruct (body r) as [| |[|] m o]; try exact Hnone.
    + exists 0%nat. split; [lia|]. split.
      * symmetry. apply after_listings_0. reflexivity.
      * cbn [fst]. intros uuid sub_id ib url total_gb H.
        injection H as <- <- <- <- <-. auto 10.
    + destruct (indicates_existing (default_of "Unknown error" m));
        [exact Hrec | exact Hnone].
  - destruct (body r) as [| |ok m o]; try exact Hnone.
    destruct (indicates_existing (default_of "" m));
      [exact Hrec | exact Hnone].
Qed.

(** The requests of one call of [create_user], and what a success
    dictionary says about them. *)
Lemma probe_loop_early username device_name fuel :
  forall counter s r s1,
    probe_loop cfg panel fuel username device_name counter s =
    (Some (Return_early r), s1) ->
    r = Dict_too_many_devices.
Proof.
  induction fuel as [|fuel IH]; intros counter s r s1; cbn [probe_loop].
  - discriminate.
  - destruct (find_user_by_username cfg panel _ None s) as [[f|] s2];
      [|discriminate].
    destruct (counter + 1 >? 100); [|apply IH].
    intros H. injection H as <- _. reflexivity.
Qed.

Lemma choose_email_early username device_name s r s1 :
  choose_email cfg panel username device_name s = (Some (Return_early r), s1) ->
  r = Dict_too_many_devices \/
  exists name url, r = Dict_username_exists name url.
Proof.
  unfold choose_email.
  destruct (if_truthy device_name) as [d|].
  - destruct (find_user_by_username cfg panel (username ++ "_" ++ d) None s)
      as [[f|] s2]; [|discriminate].
    intros H. left. eapply probe_loop_early. exact H.
  - destruct (find_user_by_username cfg panel username None s) as [[f|] s2];
      [|discriminate].
    intros H. injection H as <- _. right. eauto.
Qed.

Lemma create_user_trace rnd telegram_user_id username device_name s :
  exists logins k1 adds k2,
    sent (snd (create_user cfg panel rnd telegram_user_id username
                 device_name s)) =
    (sent s ++ logins ++ repeat (listing cfg) k1 ++ adds
            ++ repeat (listing cfg) k2)%list /\
    (List.length logins <= 8)%nat /\
    Forall (login_request_to cfg login_endpoints) logins /\
    (k1 <= 101)%nat /\ (k2 <= 1)%nat /\
    ((adds = [] /\ k2 = 0%nat /\
      forall uuid sub_id ib url total_gb,
        fst (create_user cfg panel rnd telegram_user_id username
               device_name s) <>
        Some (Dict_success uuid sub_id ib url total_gb)) \/
     exists u e inbound_id,
       if_truthy username = Some u /\
       email_shape u (if_truthy device_name) e /\
       (forall i, DEFAULT_INBOUND_ID cfg = Some i -> inbound_id = Some i) /\
       adds = [POST_addClient (add_client_url cfg) inbound_id
                 (client_data cfg rnd telegram_user_id e)] /\
       forall uuid sub_id ib url total_gb,
         fst (create_user cfg panel rnd telegram_user_id username
                device_name s) =
         Some (Dict_success uuid sub_id ib url total_gb) ->
         k2 = 0%nat /\ uuid = user_uuid rnd /\ sub_id = fresh_sub_id rnd /\
         ib = inbound_id /\ url = _get_subscription_url cfg (fresh_sub_id rnd) /\
         total_gb = DEFAULT_TOTAL_GB cfg).
Proof.
  unfold create_user.
  destruct (if_truthy username) as [u|].
  2:{ exists [], 0%nat, [], 0%nat. cbn [snd fst repeat app].
      rewrite app_nil_r.
      split; [reflexivity|]. split; [cbn; lia|]. split; [constructor|].
      split; [lia|]. split; [lia|].
      left. split; [reflexivity|]. split; [reflexivity|]. discriminate. }
  destruct (ensure_authenticated_trace s) as (logins & Hl & Hlen & Hall).
  destruct (_ensure_authenticated cfg panel s) as [[|] s1] eqn:E;
    cbn [negb snd] in *.
  2:{ exists logins, 0%nat, [], 0%nat. cbn [snd fst repeat app].
      rewrite app_nil_r.
      split; [exact Hl|]. split; [exact Hlen|]. split; [exact Hall|].
      split; [lia|]. split; [lia|].
      left. split; [reflexivity|]. split; [reflexivity|]. discriminate. }
  pose proof (ensure_authenticated_true cfg panel s s1 E) as Ha1.
  destruct (choose_email_state u device_name s1 Ha1) as (k & Hk & Hs2).
  pose proof (choose_email_shape u device_name s1) as Hshape.
  pose proof (choose_email_early u device_name s1) as Hearly.
  destruct (choose_email cfg panel u device_name s1) as [chosen s2];
    cbn [snd] in Hs2; subst s2.
  assert (Hquiet : forall (r : option CreateResult),
    (forall uuid sub_id ib url total_gb,
        r <> Some (Dict_success uuid sub_id ib url total_gb)) ->
    forall k', (k' <= 101)%nat ->
    exists logins0 k1 adds k2,
      sent (snd (r, after_listings cfg k' s1)) =
      (sent s ++ logins0 ++ repeat (listing cfg) k1 ++ adds
              ++ repeat (listing cfg) k2)%list /\
      (List.length logins0 <= 8)%nat /\
      Forall (login_request_to cfg login_endpoints) logins0 /\
      (k1 <= 101)%nat /\ (k2 <= 1)%nat /\
      ((adds = [] /\ k2 = 0%nat /\
        forall uuid sub_id ib url total_gb,
          fst (r, after_listings cfg k' s1) <>
          Some (Dict_success uuid sub_id ib url total_gb)) \/
       exists u0 e inbound_id,
         Some u = Some u0 /\
         email_shape u0 (if_truthy device_name) e /\
         (forall i, DEFAULT_INBOUND_ID cfg = Some i -> inbound_id = Some i) /\
         adds = [POST_addClient (add_client_url cfg) inbound_id
                   (client_data cfg rnd telegram_user_id e)] /\
         forall uuid sub_id ib url total_gb,
           fst (r, after_listings cfg k' s1) =
           Some (Dict_success uuid sub_id ib url total_gb) ->
           k2 = 0%nat /\ uuid = user_uuid rnd /\ sub_id = fresh_sub_id rnd /\
           ib = inbound_id /\
           url = _get_subscription_url cfg (fresh_sub_id rnd) /\
           total_gb = DEFAULT_TOTAL_GB cfg)).
  { intros r Hr k' Hk'. exists logins, k', [], 0%nat.
    cbn [snd fst]. unfold after_listings, listing. cbn [sent]. rewrite Hl.
    cbn [repeat app]. rewrite app_nil_r, <- app_assoc.
    split; [reflexivity|]. split; [exact Hlen|]. split; [exact Hall|].
    split; [exact Hk'|]. split; [lia|].
    left. split; [reflexivity|]. split; [reflexivity|]. exact Hr. }
  destruct chosen as [[e|r]|].
  - specialize (Hshape e _ eq_refl).
    destruct (target_inbound_state (after_listings cfg k s1) eq_refl)
      as (kt & Hkt & Hs3 & Hconf).
    destruct (target_inbound cfg panel (after_listings cfg k s1))
      as [[inbound_id|] s3]; cbn [snd fst] in Hs3, Hconf; subst s3.
    + rewrite after_listings_plus.
      destruct (submit_state rnd telegram_user_id u e inbound_id
                  (after_listings cfg (k + kt) s1) eq_refl)
        as (k2 & Hk2 & Hs4 & Hsucc).
      destruct (submit cfg panel rnd telegram_user_id u e inbound_id
                  (after_listings cfg (k + kt) s1)) as [res s4];
        cbn [snd fst] in Hs4, Hsucc; subst s4.
      exists logins, (k + kt)%nat,
        [POST_addClient (add_client_url cfg) inbound_id
           (client_data cfg rnd telegram_user_id e)], k2.
      cbn [snd fst]. unfold after_listings, listing. cbn [sent]. rewrite Hl.
      rewrite <- !app_assoc. cbn [app].
      split; [reflexivity|]. split; [exact Hlen|]. split; [exact Hall|].
      split; [lia|]. split; [exact Hk2|].
      right. exists u, e, inbound_id.
      split; [reflexivity|]. split; [exact Hshape|]. split.
      * intros i Hi. destruct (Hconf i inbound_id Hi eq_refl) as [-> _].
        reflexivity.
      * split; [reflexivity|].
        intros uuid sub_id ib url total_gb H. injection H as H.
        apply (Hsucc uuid sub_id ib url total_gb H).
    + rewrite after_listings_plus. apply Hquiet; [discriminate | lia].
  - apply Hquiet; [|lia].
    intros uuid sub_id ib url total_gb H. injection H as ->.
    destruct (Hearly _ _ eq_refl) as [H | (name & url' & H)]; discriminate.
  - apply Hquiet; [discriminate | lia].
Qed.

End Traces.

(** ** What the operations send, and what [create_user] returns *)

Section TraceProperties.

Variable cfg : Config.
Variable panel : Panel.

Lemma filter_is_add_listings k :
  filter is_add (repeat (listing cfg) k) = [].
Proof. induction k as [|k IH]; cbn; [reflexivity | exact IH]. Qed.

Lemma filter_is_add_logins logins :
  Forall (login_request_to cfg login_endpoints) logins ->
  filter is_add logins = [].
Proof.
  induction 1 as [|q l (e & enc & _ & ->) _ IH]; cbn; [reflexivity | exact IH].
Qed.

Lemma lookup_trace_submissions s s1 k :
  lookup_trace cfg s s1 k -> submissions s1 = submissions s.
Proof.
  intros (logins & Hs & _ & Hall). unfold submissions. rewrite Hs.
  rewrite !filter_app, (filter_is_add_logins logins Hall),
    filter_is_add_listings, !app_nil_r.
  reflexivity.
Qed.

Lemma lookup_trace_of_listings s s1 k :
  (exists logins,
      sent s1 = (sent s ++ logins)%list /\
      (List.length logins <= 8)%nat /\
      Forall (login_request_to cfg login_endpoints) logins) ->
  forall s2, s2 = after_listings cfg k s1 -> lookup_trace cfg s s2 k.
Proof.
  intros (logins & Hs & Hlen & Hall) s2 ->. exists logins.
  unfold after_listings, listing. cbn [sent]. rewrite Hs, <- app_assoc.
  repeat split; assumption.
Qed.

Lemma lookup_trace_of_logins s s1 :
  (exists logins,
      sent s1 = (sent s ++ logins)%list /\
      (List.length logins <= 8)%nat /\
      Forall (login_request_to cfg login_endpoints) logins) ->
  lookup_trace cfg s s1 0.
Proof.
  intros (logins & Hs & Hlen & Hall). exists logins. cbn [repeat].
  rewrite app_nil_r. repeat split; assumption.
Qed.

Lemma get_inbound_clients_trace i s :
  exists k, (k <= 1)%nat /\
    lookup_trace cfg s (snd (get_inbound_clients cfg panel i s)) k.
Proof.
  pose proof (ensure_authenticated_trace cfg panel s) as Ht.
  unfold get_inbound_clients.
  destruct (_ensure_authenticated cfg panel s) as [[|] s1] eqn:E;
    cbn [negb snd] in *.
  - pose proof (ensure_authenticated_true cfg panel s s1 E) as Ha.
    pose proof (get_inbound_clients_state cfg panel i s1 Ha) as Hs.
    unfold get_inbound_clients in Hs.
    rewrite (ensure_authenticated_logged_in cfg panel s1 Ha) in Hs.
    cbn [negb] in Hs.
    exists 1%nat. split; [lia|].
    eapply lookup_trace_of_listings; [exact Ht | exact Hs].
  - exists 0%nat. split; [lia|]. apply lookup_trace_of_logins. exact Ht.
Qed.

Lemma get_existing_inbound_trace protocol s :
  exists k, (k <= 1)%nat /\
    lookup_trace cfg s (snd (_get_existing_inbound cfg panel protocol s)) k.
Proof.
  pose proof (ensure_authenticated_trace cfg panel s) as Ht.
  unfold _get_existing_inbound.
  destruct (_ensure_authenticated cfg panel s) as [[|] s1] eqn:E;
    cbn [negb snd] in *.
  - pose proof (ensure_authenticated_true cfg panel s s1 E) as Ha.
    pose proof (get_existing_inbound_state cfg panel protocol s1 Ha) as Hs.
    unfold _get_existing_inbound in Hs.
    rewrite (ensure_authenticated_logged_in cfg panel s1 Ha) in Hs.
    cbn [negb] in Hs.
    exists 1%nat. split; [lia|].
    eapply lookup_trace_of_listings; [exact Ht | exact Hs].
  - exists 0%nat. split; [lia|]. apply lookup_trace_of_logins. exact Ht.
Qed.

Lemma find_user_by_username_trace username inbound_id s :
  exists k, (k <= 1)%nat /\
    lookup_trace cfg s
      (snd (find_user_by_username cfg panel username inbound_id s)) k.
Proof.
  pose proof (ensure_authenticated_trace cfg panel s) as Ht.
  destruct (_ensure_authenticated cfg panel s) as [[|] s1] eqn:E;
    cbn [snd] in Ht.
  - pose proof (ensure_authenticated_true cfg panel s s1 E) as Ha.
    destruct (find_user_by_username_state cfg panel username inbound_id s1 Ha)
      as (k & Hk & Hs).
    unfold find_user_by_username in *. rewrite E.
    rewrite (ensure_authenticated_logged_in cfg panel s1 Ha) in Hs.
    cbn [negb] in *.
    exists k. split; [exact Hk|].
    eapply lookup_trace_of_listings; [exact Ht | exact Hs].
  - unfold find_user_by_username. rewrite E. cbn [negb snd].
    exists 0%nat. split; [lia|]. apply lookup_trace_of_logins. exact Ht.
Qed.

Lemma get_all_user_subscriptions_trace telegram_user_id username s :
  exists k, (k <= 1)%nat /\
    lookup_trace cfg s
      (snd (get_all_user_subscriptions cfg panel telegram_user_id username s)) k.
Proof.
  pose proof (ensure_authenticated_trace cfg panel s) as Ht.
  unfold get_all_user_subscriptions.
  destruct (_ensure_authenticated cfg panel s) as [[|] s1] eqn:E;
    cbn [negb snd] in *.
  - pose proof (ensure_authenticated_true cfg panel s s1 E) as Ha.
    assert (H0 : exists k, (k <= 1)%nat /\ lookup_trace cfg s s1 k).
    { exists 0%nat. split; [lia|]. apply lookup_trace_of_logins. exact Ht. }
    destruct (DEFAULT_INBOUND_ID cfg) as [i|]; [|exact H0].
    destruct (i =? 0); [exact H0|].
    pose proof (get_inbound_clients_state cfg panel i s1 Ha) as Hs.
    destruct (get_inbound_clients cfg panel i s1) as [[inbound|] s2];
      cbn [snd] in Hs; (exists 1%nat; split; [lia|]).
    + destruct (ib_settings inbound); cbn [snd];
        (eapply lookup_trace_of_listings; [exact Ht | exact Hs]).
    + eapply lookup_trace_of_listings; [exact Ht | exact Hs].
  - exists 0%nat. split; [lia|]. apply lookup_trace_of_logins. exact Ht.
Qed.

(** X14.  Whatever the panel answers and whatever the state of the
    service, a lookup ([get_inbound_clients], [_get_existing_inbound],
    [find_user_by_username], [get_all_user_subscriptions],
    [get_user_subscription]) sends at most eight login requests followed
    by at most one listing request, and never an [addClient] request. *)
Theorem lookups_only_read telegram_user_id username email_key inbound_id i
    protocol s :
  let reads s1 :=
    (exists k, (k <= 1)%nat /\ lookup_trace cfg s s1 k) /\
    submissions s1 = submissions s in
  reads (snd (get_inbound_clients cfg panel i s)) /\
  reads (snd (_get_existing_inbound cfg panel protocol s)) /\
  reads (snd (find_user_by_username cfg panel email_key inbound_id s)) /\
  reads (snd (get_all_user_subscriptions cfg panel telegram_user_id username s)) /\
  reads (snd (get_user_subscription cfg panel telegram_user_id username s)).
Proof.
  intros reads.
  assert (Hreads : forall s1,
             (exists k, (k <= 1)%nat /\ lookup_trace cfg s s1 k) -> reads s1).
  { intros s1 (k & Hk & Ht). split; [exists k; auto|].
    eapply lookup_trace_submissions. exact Ht. }
  split; [apply Hreads; apply get_inbound_clients_trace|].
  split; [apply Hreads; apply get_existing_inbound_trace|].
  split; [apply Hreads; apply find_user_by_username_trace|].
  split; [apply Hreads; apply get_all_user_subscriptions_trace|].
  apply Hreads.
  - unfold get_user_subscription.
    pose proof (get_all_user_subscriptions_trace telegram_user_id username s)
      as H.
    destruct (get_all_user_subscriptions cfg panel telegram_user_id username s)
      as [[|first rest] s1]; exact H.
Qed.

(** X15.  Whatever the panel answers, one call of [create_user] sends, in
    this order, at most eight login requests, at most 101 listing
    requests, at most one [addClient] request and at most one more
    listing request: at most 111 requests, of which at most one changes
    the panel.  The client of the [addClient] request is built from the
    fresh values of the call, its email is the bare username when no
    device name is given and otherwise [username_device] or
    [username_device_n] with [n] from 2 to 100, and it goes to the
    configured inbound whenever one is configured. *)
Theorem create_user_requests rnd telegram_user_id username device_name s :
  let after :=
    snd (create_user cfg panel rnd telegram_user_id username device_name s) in
  (exists logins k1 adds k2,
      sent after =
      (sent s ++ logins ++ repeat (listing cfg) k1 ++ adds
              ++ repeat (listing cfg) k2)%list /\
      (List.length logins <= 8)%nat /\
      Forall (login_request_to cfg login_endpoints) logins /\
      (k1 <= 101)%nat /\ (k2 <= 1)%nat /\
      (adds = [] \/
       exists u e inbound_id,
         if_truthy username = Some u /\
         email_shape u (if_truthy device_name) e /\
         (forall i, DEFAULT_INBOUND_ID cfg = Some i -> inbound_id = Some i) /\
         adds = [POST_addClient (add_client_url cfg) inbound_id
                   (client_data cfg rnd telegram_user_id e)])) /\
  (submissions after <= submissions s + 1)%nat /\
  (List.length (sent after) <= List.length (sent s) + 111)%nat.
Proof.
  intros after. subst after.
  destruct (create_user_trace cfg panel rnd telegram_user_id username
              device_name s)
    as (logins & k1 & adds & k2 & Hs & Hlen & Hall & Hk1 & Hk2 & Hadds).
  assert (Hshape :
    adds = [] \/
    exists u e inbound_id,
      if_truthy username = Some u /\
      email_shape u (if_truthy device_name) e /\
      (forall i, DEFAULT_INBOUND_ID cfg = Some i -> inbound_id = Some i) /\
      adds = [POST_addClient (add_client_url cfg) inbound_id
                (client_data cfg rnd telegram_user_id e)]).
  { destruct Hadds as [(H & _) | (u & e & ib & Hu & He & Hi & Ha & _)];
      [left; exact H | right; exists u, e, ib; auto]. }
  assert (Hone : (List.length adds <= 1)%nat /\
                 (List.length (filter is_add adds) <= 1)%nat).
  { destruct Hshape as [-> | (u & e & ib & _ & _ & _ & ->)]; cbn; lia. }
  split.
  - exists logins, k1, adds, k2. repeat split; assumption.
  - split.
    + unfold submissions. rewrite Hs, !filter_app.
      rewrite (filter_is_add_logins logins Hall), !filter_is_add_listings.
      cbn [app]. rewrite app_nil_r, length_app. lia.
    + rewrite Hs, !length_app, !repeat_length. lia.
Qed.

(** X16.  When [create_user] returns the success dictionary, its [uuid]
    and [sub_id] are the fresh values of the call, its URL is the one
    derived from that [sub_id], its [total_gb] is the configured quota,
    and the last request of the call is the [addClient] request that
    carries this [uuid] and [sub_id] to the inbound named in the
    dictionary, which is the configured inbound whenever one is
    configured. *)
Theorem create_user_success_reports_submitted_client
    rnd telegram_user_id username device_name s uuid sub_id ib url total_gb :
  fst (create_user cfg panel rnd telegram_user_id username device_name s) =
  Some (Dict_success uuid sub_id ib url total_gb) ->
  uuid = user_uuid rnd /\
  sub_id = fresh_sub_id rnd /\
  url = _get_subscription_url cfg sub_id /\
  total_gb = DEFAULT_TOTAL_GB cfg /\
  (forall i, DEFAULT_INBOUND_ID cfg = Some i -> ib = Some i) /\
  exists before u e,
    if_truthy username = Some u /\
    email_shape u (if_truthy device_name) e /\
    id (client_data cfg rnd telegram_user_id e) = Some uuid /\
    subId (client_data cfg rnd telegram_user_id e) = Some sub_id /\
    tgId (client_data cfg rnd telegram_user_id e) =
      Some (PyStr.str telegram_user_id) /\
    sent (snd (create_user cfg panel rnd telegram_user_id username
                 device_name s)) =
    (sent s ++ before ++
     [POST_addClient (add_client_url cfg) ib
        (client_data cfg rnd telegram_user_id e)])%list.
Proof.
  intros Hres.
  destruct (create_user_trace cfg panel rnd telegram_user_id username
              device_name s)
    as (logins & k1 & adds & k2 & Hs & _ & _ & _ & _ & Hadds).
  destruct Hadds as [(_ & _ & Hno) | (u & e & ib' & Hu & He & Hi & Ha & Hsucc)].
  - exfalso. exact (Hno _ _ _ _ _ Hres).
  - destruct (Hsucc _ _ _ _ _ Hres) as (-> & -> & -> & -> & -> & ->).
    repeat split; try reflexivity; try exact Hi.
    exists (logins ++ repeat (listing cfg) k1)%list, u, e.
    repeat split; try assumption.
    rewrite Hs, Ha. cbn [repeat]. rewrite app_nil_r, <- !app_assoc.
    reflexivity.
Qed.

(** X17.  When authentication fails, every operation returns its empty
    value right after the login attempts: [create_user] (for an identity
    with a username) returns [None], and so do the lookups by email and
    by inbound, while [get_all_user_subscriptions] returns the empty
    list. *)
Theorem operations_fail_without_authentication
    rnd telegram_user_id username device_name email_key inbound_id i protocol
    s s1 :
  _ensure_authenticated cfg panel s = (false, s1) ->
  PyStr.truthy username = true ->
  create_user cfg panel rnd telegram_user_id (Some username) device_name s =
    (Some ReturnsNone, s1) /\
  find_user_by_username cfg panel email_key inbound_id s = (None, s1) /\
  get_inbound_clients cfg panel i s = (None, s1) /\
  _get_existing_inbound cfg panel protocol s = (None, s1) /\
  get_all_user_subscriptions cfg panel telegram_user_id (Some username) s =
    ([], s1) /\
  get_user_subscription cfg panel telegram_user_id (Some username) s =
    (None, s1).
Proof.
  intros E Hu.
  unfold create_user, find_user_by_username, get_inbound_clients,
    _get_existing_inbound, get_user_subscription, get_all_user_subscriptions,
    if_truthy.
  rewrite Hu, E. cbn [negb]. repeat split; reflexivity.
Qed.

(** X18.  When the [addClient] request raises, or its answer is not a
    JSON object, or it reports a failure whose message contains none of
    "exist", "duplicate" and "already" (a missing message of a 200 answer
    counts as "Unknown error"), the submission ends with [None] and no
    further request: such a rejection carries no reason to the caller. *)
Theorem submit_plain_failure_returns_none
    rnd telegram_user_id username e inbound_id s :
  plain_failure
    (panel (sent s)
       (POST_addClient (add_client_url cfg) inbound_id
          (client_data cfg rnd telegram_user_id e))) = true ->
  submit cfg panel rnd telegram_user_id username e inbound_id s =
  (ReturnsNone,
   mkService (_authenticated s)
     (sent s ++ [POST_addClient (add_client_url cfg) inbound_id
                   (client_data cfg rnd telegram_user_id e)])%list).
Proof.
  unfold plain_failure, submit, send.
  destruct (panel (sent s) _) as [r|ex]; [|reflexivity].
  destruct (body r) as [| |ok m o].
  - destruct (status_code r =? 200); reflexivity.
  - destruct (status_code r =? 200); reflexivity.
  - destruct (status_code r =? 200).
    + destruct ok; cbn [negb andb]; [discriminate|].
      destruct (indicates_existing (default_of "Unknown error" m));
        [discriminate | reflexivity].
    + destruct (indicates_existing (default_of "" m));
        [discriminate | reflexivity].
Qed.

End TraceProperties.

Lemma create_user_success_witness :
  let r := create_user cfg_inbound1 (storing_panel [vmess_inbound alice_two])
             rnd1 7 (Some "alice") (Some "phone") logged_out in
  let url := "https://panel.example.com:2096/sub/Ab12_-xyzQ0w9LkT" in
  fst r =
  Some (Dict_success (user_uuid rnd1) (fresh_sub_id rnd1) (Some 1) url 100) /\
  (user_uuid rnd1 = user_uuid rnd1 /\
   fresh_sub_id rnd1 = fresh_sub_id rnd1 /\
   url = _get_subscription_url cfg_inbound1 (fresh_sub_id rnd1) /\
   100 = DEFAULT_TOTAL_GB cfg_inbound1 /\
   (forall i, DEFAULT_INBOUND_ID cfg_inbound1 = Some i -> Some 1 = Some i) /\
   exists before u e,
     if_truthy (Some "alice") = Some u /\
     email_shape u (if_truthy (Some "phone")) e /\
     id (client_data cfg_inbound1 rnd1 7 e) = Some (user_uuid rnd1) /\
     subId (client_data cfg_inbound1 rnd1 7 e) = Some (fresh_sub_id rnd1) /\
     tgId (client_data cfg_inbound1 rnd1 7 e) = Some (PyStr.str 7) /\
     sent (snd r) =
     (sent logged_out ++ before ++
      [POST_addClient (add_client_url cfg_inbound1) (Some 1)
         (client_data cfg_inbound1 rnd1 7 e)])%list).
Proof.
  split; [reflexivity|].
  apply (create_user_success_reports_submitted_client cfg_inbound1
           (storing_panel [vmess_inbound alice_two]) rnd1 7 (Some "alice")
           (Some "phone") logged_out).
  reflexivity.
Defined.

Lemma operations_fail_witness :
  create_user cfg_inbound1 (scripted []) rnd1 7 (Some "alice") None logged_out
  = (Some ReturnsNone,
     mkService false [try_json cfg_inbound1 "/login"]) /\
  get_all_user_subscriptions cfg_inbound1 (scripted []) 7 (Some "alice")
    logged_out
  = ([], mkService false [try_json cfg_inbound1 "/login"]).
Proof.
  destruct (operations_fail_without_authentication cfg_inbound1 (scripted [])
              rnd1 7 "alice" None "alice" None 1 "vmess" logged_out
              (mkService false [try_json cfg_inbound1 "/login"])
              eq_refl eq_refl) as (H1 & _ & _ & _ & H5 & _).
  split; [exact H1 | exact H5].
Defined.

Lemma submit_plain_failure_witness :
  submit cfg_inbound1 (fixed_panel [vmess_inbound []] refused_plainly)
    rnd1 7 "alice" "alice" (Some 1) logged_in =
  (ReturnsNone,
   mkService true
     [POST_addClient (add_client_url cfg_inbound1) (Some 1)
        (client_data cfg_inbound1 rnd1 7 "alice")]).
Proof.
  apply (submit_plain_failure_returns_none cfg_inbound1
           (fixed_panel [vmess_inbound []] refused_plainly) rnd1 7 "alice"
           "alice" (Some 1) logged_in eq_refl).
Defined.

(** ** Keys, labels and texts *)

Section Keys.

Lemma append_eq_self (a x : string) : a ++ x = a -> x = "".
Proof.
  induction a as [|c a IH]; cbn; intros H; [exact H|].
  injection H as H. apply IH. exact H.
Qed.

Lemma str_inj (a b : Z) : PyStr.str a = PyStr.str b -> a = b.
Proof.
  unfold PyStr.str. intros H.
  assert (Hok : forall z, Z.to_int z <> Decimal.Pos Decimal.Nil /\
                          Z.to_int z <> Decimal.Neg Decimal.Nil).
  { intros [|p|p]; cbn; split; try discriminate;
      intros E; injection E as E;
      exact (DecimalPos.Unsigned.to_uint_nonnil p E). }
  apply DecimalZ.to_int_inj.
  assert (E : NilZero.int_of_string (NilZero.string_of_int (Z.to_int a)) =
              NilZero.int_of_string (NilZero.string_of_int (Z.to_int b)))
    by (rewrite H; reflexivity).
  rewrite !NilZero.isi in E by apply Hok.
  injection E as E. exact E.
Qed.

(** X19.  For one username and one device name, the keys that
    [create_user] can probe are pairwise different: two counters give two
    keys, no counter gives the first key [username_device], and no device
    key is the bare username.  Two device names give two first keys. *)
Theorem device_keys_are_distinct username device_name :
  (forall a b,
      device_key username device_name a = device_key username device_name b ->
      a = b) /\
  (forall n, device_key username device_name n <> username ++ "_" ++ device_name) /\
  (forall n, device_key username device_name n <> username) /\
  username ++ "_" ++ device_name <> username /\
  (forall other, username ++ "_" ++ device_name = username ++ "_" ++ other ->
                 device_name = other).
Proof.
  unfold device_key. repeat split.
  - intros a b H. do 4 apply append_inj_l in H. apply str_inj. exact H.
  - intros n H.
    do 2 apply append_inj_l in H. apply append_eq_self in H.
    discriminate.
  - intros n H. apply append_eq_self in H. discriminate.
  - intros H. apply append_eq_self in H. discriminate.
  - intros other H. do 2 apply append_inj_l in H. exact H.
Qed.

Variable cfg : Config.
Variable panel : Panel.




Lemma rstrip_decompose c s :
  exists k, s = PyStr.rstrip c s ++ chars c k.
Proof.
  induction s as [|a s (k & IH)]; [exists 0%nat; reflexivity|].
  cbn [PyStr.rstrip].
  destruct (PyStr.rstrip c s) as [|b r] eqn:E.
  - cbn in IH. destruct (Ascii.eqb_spec a c) as [-> | _].
    + exists (S k). cbn. rewrite <- IH. reflexivity.
    + exists k. cbn. rewrite <- IH. reflexivity.
  - exists k. cbn. cbn in IH. rewrite <- IH. reflexivity.
Qed.

Lemma rstrip_no_trailing c s :
  forall x, PyStr.rstrip c s <> x ++ String c "".
Proof.
  induction s as [|a s IH]; intros x; cbn [PyStr.rstrip].
  - destruct x; discriminate.
  - destruct (PyStr.rstrip c s) as [|b r] eqn:E.
    + destruct (Ascii.eqb_spec a c) as [-> | Hne].
      * destruct x; discriminate.
      * destruct x as [|y [|z x]]; cbn; try discriminate.
        intros H. injection H as H. contradiction.
    + destruct x as [|y x]; cbn; [discriminate|].
      intros H. injection H as _ H. exact (IH x H).
Qed.

(** X21.  The base URL under which every request is sent is the
    configured panel URL without its trailing slashes: it never ends with
    ["/"], and the configured URL is the base URL followed by slashes
    only.  So the request URLs have exactly one slash where the path is
    joined to the base. *)
Theorem base_has_no_trailing_slash :
  (forall x, base cfg <> x ++ "/") /\
  (exists k, XUI_URL cfg = base cfg ++ chars "/" k) /\
  list_url cfg = base cfg ++ "/panel/api/inbounds/list" /\
  add_client_url cfg = base cfg ++ "/panel/api/inbounds/addClient".
Proof.
  unfold base. split; [apply rstrip_no_trailing|].
  split; [apply rstrip_decompose|]. split; reflexivity.
Qed.

Lemma lower_append a b : PyStr.lower (a ++ b) = PyStr.lower a ++ PyStr.lower b.
Proof. induction a as [|c a IH]; cbn; [reflexivity|]. rewrite IH. reflexivity. Qed.

Lemma contains_startswith p s :
  PyStr.startswith s p = true -> PyStr.contains p s = true.
Proof. intros H. destruct s; cbn [PyStr.contains]; rewrite H; reflexivity. Qed.

Lemma contains_after p x s :
  PyStr.contains p s = true -> PyStr.contains p (x ++ s) = true.
Proof.
  intros H. induction x as [|c x IH]; cbn [append]; [exact H|].
  cbn [PyStr.contains]. rewrite IH. destruct (PyStr.startswith _ _); reflexivity.
Qed.

Lemma contains_word p x y :
  PyStr.contains p (x ++ p ++ y) = true.
Proof. apply contains_after, contains_startswith, startswith_append. Qed.

(** X22.  A failure message is read as "the account exists" as soon as
    one of the words "exist", "duplicate", "already" occurs anywhere in
    it, in any mix of upper and lower case, whatever precedes and follows
    the word. *)
Theorem indicates_existing_any_case before w after :
  existence_word w ->
  indicates_existing (before ++ w ++ after) = true.
Proof.
  intros Hw. unfold indicates_existing.
  rewrite !lower_append. cbv zeta.
  destruct Hw as [-> | [-> | ->]]; rewrite contains_word;
    rewrite ?orb_true_r; reflexivity.
Qed.

End Keys.


Lemma indicates_existing_witness :
  indicates_existing "Something went wrong: user ALREADY registered" = true.
Proof.
  apply (indicates_existing_any_case "Something went wrong: user " "ALREADY"
           " registered").
  right. right. reflexivity.
Defined.

(** ** The handlers *)

Section Handlers.

Lemma startswith_length s p :
  PyStr.startswith s p = true -> (String.length p <= String.length s)%nat.
Proof.
  revert s. induction p as [|a p IH]; intros s; [cbn; lia|].
  destruct s as [|b s]; cbn; [discriminate|].
  destruct (Ascii.eqb a b); [|discriminate].
  intros H. apply IH in H. lia.
Qed.

Lemma remove_short p s :
  (String.length s < String.length p)%nat -> PyStr.remove p s = s.
Proof.
  unfold PyStr.remove. induction s as [|c s IH]; intros H; [reflexivity|].
  cbn [PyStr.remove_from].
  destruct (PyStr.startswith (String c s) p) eqn:E.
  - apply startswith_length in E. lia.
  - rewrite IH; [reflexivity|]. cbn in H. lia.
Qed.

Lemma remove_from_skip p x s :
  PyStr.remove_from (String.length x) p (x ++ s) = PyStr.remove_from 0 p s.
Proof.
  induction x as [|c x IH]; cbn; [reflexivity | exact IH].
Qed.

Lemma remove_prefix c p s :
  PyStr.remove (String c p) (String c p ++ s) = PyStr.remove (String c p) s.
Proof.
  unfold PyStr.remove. cbn [append PyStr.remove_from].
  change (String c (p ++ s)) with (String c p ++ s).
  rewrite startswith_append. cbn [String.length Nat.sub].
  rewrite Nat.sub_0_r. apply remove_from_skip.
Qed.

Lemma selected_subscription_finds all_subscriptions e :
  In e all_subscriptions ->
  exists e', selected_subscription all_subscriptions (s_sub_id e) = Some e' /\
             In e' all_subscriptions /\ s_sub_id e' = s_sub_id e.
Proof.
  induction all_subscriptions as [|x rest IH]; intros Hin; [contradiction|].
  cbn [selected_subscription].
  destruct (String.eqb_spec (s_sub_id x) (s_sub_id e)) as [E|Hne].
  - exists x. split; [reflexivity|]. split; [left; reflexivity | exact E].
  - destruct Hin as [-> | Hin]; [contradiction|].
    destruct (IH Hin) as (e' & H1 & H2 & H3).
    exists e'. split; [exact H1|]. split; [right; exact H2 | exact H3].
Qed.

(** X23.  The button of a menu entry leads back to an entry with the same
    sub id: for a sub id shorter than the 20 characters of the prefix
    (the sub ids that [create_user] draws have 16), [button_callback]
    passes exactly that sub id to [handle_select_subscription], whose
    loop then finds an entry of the list with this sub id.  Likewise a
    device-name button with a name shorter than 12 characters passes
    exactly that name on. *)
Theorem menu_button_selects_its_entry all_subscriptions e device_name :
  In e all_subscriptions ->
  (String.length (s_sub_id e) < 20)%nat ->
  (String.length device_name < 12)%nat ->
  button_callback (select_callback_data e) =
    To_handle_select_subscription (s_sub_id e) /\
  (exists e',
      selected_subscription all_subscriptions (s_sub_id e) = Some e' /\
      In e' all_subscriptions /\ s_sub_id e' = s_sub_id e) /\
  button_callback ("device_name_" ++ device_name) =
    To_handle_device_name_selected device_name.
Proof.
  intros Hin Hlen Hd. split; [|split].
  - unfold button_callback, select_callback_data.
    rewrite (startswith_append "select_subscription_" (s_sub_id e)),
      (remove_prefix "s" "elect_subscription_" (s_sub_id e)),
      (remove_short "select_subscription_" (s_sub_id e) Hlen).
    reflexivity.
  - apply selected_subscription_finds. exact Hin.
  - unfold button_callback.
    rewrite (startswith_append "device_name_" device_name),
      (remove_prefix "d" "evice_name_" device_name),
      (remove_short "device_name_" device_name Hd).
    reflexivity.
Qed.

Variable cfg : Config.
Variable panel : Panel.

Lemma subscription_url_truthy sub_id :
  PyStr.truthy (_get_subscription_url cfg sub_id) = true.
Proof.
  destruct (subscription_url_shape cfg) as (authority & H). rewrite H.
  reflexivity.
Qed.

Lemma find_user_by_username_url username inbound_id s f :
  fst (find_user_by_username cfg panel username inbound_id s) = Some f ->
  PyStr.truthy (found_subscription_url f) = true.
Proof.
  unfold find_user_by_username.
  destruct (_ensure_authenticated cfg panel s) as [[|] s1]; cbn [negb];
    [|discriminate].
  destruct (match inbound_id with
            | Some i => Some i
            | None => DEFAULT_INBOUND_ID cfg
            end) as [i|]; [|discriminate].
  destruct (i =? 0); [discriminate|].
  destruct (get_inbound_clients cfg panel i s1) as [[inbound|] s2];
    [|discriminate].
  destruct (ib_settings inbound) as [|clients]; [discriminate|].
  cbn [fst]. intros H. apply scan_clients_sound in H.
  destruct H as (_ & _ & -> & _). apply subscription_url_truthy.
Qed.

Lemma create_user_exists_url rnd telegram_user_id username device_name s
    name url :
  fst (create_user cfg panel rnd telegram_user_id username device_name s) =
  Some (Dict_username_exists name url) ->
  PyStr.truthy url = true.
Proof.
  unfold create_user.
  destruct (if_truthy username) as [u|]; [|discriminate].
  destruct (_ensure_authenticated cfg panel s) as [[|] s1]; cbn [negb];
    [|discriminate].
  destruct (choose_email cfg panel u device_name s1) as [chosen s2] eqn:Ec.
  destruct chosen as [[e|r]|]; [| |discriminate].
  - destruct (target_inbound cfg panel s2) as [[ib|] s3]; [|discriminate].
    unfold submit, send.
    set (s4 := mkService _ _).
    assert (Hrec : fst (recover_existing cfg panel u ib s4) =
                   Dict_username_exists name url -> PyStr.truthy url = true).
    { unfold recover_existing.
      pose proof (find_user_by_username_url u ib s4) as Hf.
      destruct (find_user_by_username cfg panel u ib s4) as [[f|] s5];
        cbn [fst] in *; [|discriminate].
      intros H. injection H as _ <-. apply (Hf f eq_refl). }
    destruct (panel (sent s3) _) as [r|ex]; [|discriminate].
    destruct (status_code r =? 200).
    + destruct (body r) as [| |[|] m o]; try discriminate.
      destruct (indicates_existing _).
      * destruct (recover_existing cfg panel u ib s4) as [res s5].
        cbn [fst] in *. intros H. injection H as H. exact (Hrec H).
      * discriminate.
    + destruct (body r) as [| |ok m o]; try discriminate.
      destruct (indicates_existing _).
      * destruct (recover_existing cfg panel u ib s4) as [res s5].
        cbn [fst] in *. intros H. injection H as H. exact (Hrec H).
      * discriminate.
  - cbn [fst]. intros H. injection H as ->.
    unfold choose_email in Ec.
    destruct (if_truthy device_name) as [d|].
    + destruct (find_user_by_username cfg panel (u ++ "_" ++ d) None s1)
        as [[f|] s1']; [|discriminate].
      apply probe_loop_early in Ec. discriminate.
    + pose proof (find_user_by_username_url u None s1) as Hf.
      destruct (find_user_by_username cfg panel u None s1) as [[f|] s1'];
        [|discriminate].
      injection Ec as _ <- _. apply (Hf f eq_refl).
Qed.

Lemma create_user_success_url rnd telegram_user_id username device_name s
    uuid sub_id ib url total_gb :
  fst (create_user cfg panel rnd telegram_user_id username device_name s) =
  Some (Dict_success uuid sub_id ib url total_gb) ->
  PyStr.truthy url = true.
Proof.
  intros H.
  destruct (create_user_trace cfg panel rnd telegram_user_id username
              device_name s)
    as (logins & k1 & adds & k2 & _ & _ & _ & _ & _ & Hadds).
  destruct Hadds as [(_ & _ & Hno) | (u & e & ib' & _ & _ & _ & _ & Hs)].
  - exfalso. exact (Hno _ _ _ _ _ H).
  - destruct (Hs _ _ _ _ _ H) as (_ & _ & _ & _ & -> & _).
    apply subscription_url_truthy.
Qed.

Lemma create_user_requires_username rnd telegram_user_id username device_name s :
  if_truthy username <> None ->
  fst (create_user cfg panel rnd telegram_user_id username device_name s) <>
  Some Dict_username_required.
Proof.
  intros Hu. unfold create_user.
  destruct (if_truthy username) as [u|]; [|contradiction].
  destruct (_ensure_authenticated cfg panel s) as [[|] s1]; cbn [negb];
    [|discriminate].
  destruct (choose_email cfg panel u device_name s1) as [chosen s2] eqn:Ec.
  destruct chosen as [[e|r]|]; [| |discriminate].
  - destruct (target_inbound cfg panel s2) as [[ib|] s3]; [|discriminate].
    unfold submit, send, recover_existing.
    destruct (panel (sent s3) _) as [r|ex]; [|discriminate].
    destruct (status_code r =? 200).
    + destruct (body r) as [| |[|] m o]; try discriminate.
      destruct (indicates_existing _); [|discriminate].
      destruct (find_user_by_username cfg panel u ib _) as [[f|] s5];
        discriminate.
    + destruct (body r) as [| |ok m o]; try discriminate.
      destruct (indicates_existing _); [|discriminate].
      destruct (find_user_by_username cfg panel u ib _) as [[f|] s5];
        discriminate.
  - cbn [fst]. intros H. injection H as ->.
    destruct (choose_email_early cfg panel u device_name s1 _ _ Ec)
      as [H | (name & url & H)]; discriminate.
Qed.

Lemma get_user_subscription_url telegram_user_id username s url :
  fst (get_user_subscription cfg panel telegram_user_id username s) = Some url ->
  PyStr.truthy url = true.
Proof.
  unfold get_user_subscription.
  pose proof (get_all_user_subscriptions_cases cfg panel telegram_user_id
                username s) as H.
  destruct (get_all_user_subscriptions cfg panel telegram_user_id username s)
    as [l s1]. cbn [fst] in H.
  destruct l as [|first rest]; [discriminate|].
  cbn [fst]. intros E. injection E as <-.
  destruct H as [H | (clients & H)]; [discriminate|].
  destruct (filter (owned_with_sub_id telegram_user_id) clients) as [|c cs];
    [discriminate|].
  injection H as -> _. apply subscription_url_truthy.
Qed.

(** X24.  Whatever the panel answers, [handle_generate_subscription]
    never reaches three of its error messages: the URLs that the service
    returns are never empty, so neither "no link" nor "username exists"
    without a link is shown, and [create_user] is only called with a
    username, so its [username_required] message is never shown.  A URL
    that is stored is never empty. *)
Theorem handler_dead_error_messages
    rnd telegram_user_id username device_name s :
  let shown :=
    fst (subscription_url_to_store cfg panel rnd telegram_user_id username
           device_name s) in
  shown <> Some Error_no_link /\
  shown <> Some Error_username_exists /\
  shown <> Some Error_message_of_create_user /\
  (forall url is_new, shown = Some (Stored_url url is_new) ->
                      PyStr.truthy url = true).
Proof.
  intros shown. subst shown. unfold subscription_url_to_store.
  destruct (if_truthy username) as [u|] eqn:Eu.
  2:{ cbn [fst]. repeat split; try discriminate. }
  assert (Hstore : forall url is_new (s' : XUIService),
    PyStr.truthy url = true ->
    fst (Some (store_url url is_new), s') <> Some Error_no_link /\
    fst (Some (store_url url is_new), s') <> Some Error_username_exists /\
    fst (Some (store_url url is_new), s') <> Some Error_message_of_create_user /\
    (forall url' is_new',
        fst (Some (store_url url is_new), s') = Some (Stored_url url' is_new') ->
        PyStr.truthy url' = true)).
  { intros url is_new s' Hurl. unfold store_url. rewrite Hurl. cbn.
    repeat split; try discriminate.
    intros url' is_new' H. injection H as <- _. exact Hurl. }
  assert (Hcreate : forall s1,
    let r := create_user cfg panel rnd telegram_user_id username device_name s1 in
    let out :=
      fst (let '(result, s2) := r in
           match result with
           | None => (None, s2)
           | Some (Dict_success _ _ _ url _) => (Some (store_url url true), s2)
           | Some (Dict_username_exists _ existing_url) =>
               if PyStr.truthy existing_url
               then (Some (store_url existing_url false), s2)
               else (Some Error_username_exists, s2)
           | Some Dict_username_required =>
               (Some Error_message_of_create_user, s2)
           | Some Dict_too_many_devices => (Some Error_creating, s2)
           | Some ReturnsNone => (Some Error_creating, s2)
           end) in
    out <> Some Error_no_link /\
    out <> Some Error_username_exists /\
    out <> Some Error_message_of_create_user /\
    (forall url is_new, out = Some (Stored_url url is_new) ->
                        PyStr.truthy url = true)).
  { intros s1 r out. subst out r.
    pose proof (create_user_exists_url rnd telegram_user_id username
                  device_name s1) as Hex.
    pose proof (create_user_success_url rnd telegram_user_id username
                  device_name s1) as Hsu.
    pose proof (create_user_requires_username rnd telegram_user_id username
                  device_name s1) as Hre.
    destruct (create_user cfg panel rnd telegram_user_id username device_name s1)
      as [[res|] s2]; cbn [fst] in *.
    - destruct res as [| | |name url|uuid sub_id ib url total_gb].
      + cbn. repeat split; discriminate.
      + exfalso. apply Hre; [rewrite Eu; discriminate | reflexivity].
      + cbn. repeat split; discriminate.
      + rewrite (Hex name url eq_refl).
        apply (Hstore url false s2 (Hex _ _ eq_refl)).
      + apply (Hstore url true s2 (Hsu _ _ _ _ _ eq_refl)).
    - cbn. repeat split; discriminate. }
  destruct (if_truthy device_name) as [d|].
  - apply Hcreate.
  - pose proof (get_user_subscription_url telegram_user_id username s) as Hg.
    destruct (get_user_subscription cfg panel telegram_user_id username s)
      as [[url|] s1]; cbn [fst] in Hg.
    + rewrite (Hg url eq_refl). cbn [default_of].
      apply (Hstore url false s1 (Hg url eq_refl)).
    + apply Hcreate.
Qed.

(** X25.  For a first device (no device name), an owner for whom
    [get_user_subscription] finds a subscription is shown that URL as an
    existing subscription, and [create_user] is not called: the service
    is left as the lookup leaves it and nothing is submitted, whatever
    the email of the account that was found. *)
Theorem handler_first_device_reuses_existing
    rnd telegram_user_id username device_name s url :
  if_truthy username <> None ->
  if_truthy device_name = None ->
  fst (get_user_subscription cfg panel telegram_user_id username s) = Some url ->
  subscription_url_to_store cfg panel rnd telegram_user_id username
    device_name s =
  (Some (Stored_url url false),
   snd (get_user_subscription cfg panel telegram_user_id username s)) /\
  submissions
    (snd (subscription_url_to_store cfg panel rnd telegram_user_id username
            device_name s)) = submissions s.
Proof.
  intros Hu Hd Hg.
  assert (H :
    subscription_url_to_store cfg panel rnd telegram_user_id username
      device_name s =
    (Some (Stored_url url false),
     snd (get_user_subscription cfg panel telegram_user_id username s))).
  { unfold subscription_url_to_store.
    destruct (if_truthy username) as [u|]; [|contradiction].
    rewrite Hd.
    pose proof (get_user_subscription_url telegram_user_id username s url Hg)
      as Hurl.
    destruct (get_user_subscription cfg panel telegram_user_id username s)
      as [existing s1]. cbn [fst snd] in *. subst existing.
    rewrite Hurl. cbn [default_of]. unfold store_url. rewrite Hurl.
    reflexivity. }
  split; [exact H|]. rewrite H. cbn [snd].
  unfold get_user_subscription.
  destruct (get_all_user_subscriptions_trace cfg panel telegram_user_id
              username s) as (k & _ & Ht).
  destruct (get_all_user_subscriptions cfg panel telegram_user_id username s)
    as [[|first rest] s1]; cbn [snd] in *;
    exact (lookup_trace_submissions cfg s s1 k Ht).
Qed.

(** X26.  When every key from [username_device] to [username_device_100]
    is taken in the configured inbound, the handler shows the general
    creation error: the message of the [too_many_devices] dictionary is
    not shown, and nothing is submitted. *)
Theorem handler_too_many_devices_shows_general_error
    rnd telegram_user_id username device_name s inbounds i clients :
  PyStr.truthy username = true ->
  PyStr.truthy device_name = true ->
  _authenticated s = true ->
  always_lists cfg panel inbounds ->
  DEFAULT_INBOUND_ID cfg = Some i ->
  i <> 0 ->
  clients_of i inbounds = Some clients ->
  taken clients (username ++ "_" ++ device_name) = true ->
  (forall j, 2 <= j <= 100 ->
             taken clients (device_key username device_name j) = true) ->
  subscription_url_to_store cfg panel rnd telegram_user_id (Some username)
    (Some device_name) s =
  (Some Error_creating, after_listings cfg 100 s).
Proof.
  intros Hu Hd Ha Hl Hdef Hi Hcs Htaken Hall.
  unfold subscription_url_to_store, if_truthy. rewrite Hu, Hd.
  cbv iota beta zeta.
  unfold create_user, if_truthy. rewrite Hu.
  rewrite (ensure_authenticated_logged_in cfg panel s Ha). cbn [negb].
  unfold choose_email, if_truthy. rewrite Hd.
  destruct (lookup_taken cfg panel inbounds i clients Hl Hdef Hi Hcs
              (username ++ "_" ++ device_name) s Ha Htaken) as (f & ->).
  rewrite (probe_loop_all_taken cfg panel inbounds i clients Hl Hdef Hi Hcs
             username device_name probe_fuel 2 (after_listings cfg 1 s));
    try reflexivity; try assumption; try lia;
    [| unfold probe_fuel; lia].
  rewrite after_listings_add. reflexivity.
Qed.

End Handlers.

Lemma menu_button_witness :
  button_callback
    (select_callback_data
       (mkSubscription "alice_phone" "https://panel.example.com:2096/sub/s1"
          "phone" "s1")) = To_handle_select_subscription "s1".
Proof.
  refine (proj1 (menu_button_selects_its_entry
                  [mkSubscription "alice" "https://panel.example.com:2096/sub/s0"
                     primary_device_label "s0";
                   mkSubscription "alice_phone"
                     "https://panel.example.com:2096/sub/s1" "phone" "s1"]
                  (mkSubscription "alice_phone"
                     "https://panel.example.com:2096/sub/s1" "phone" "s1")
                  "iphone" (or_intror (or_introl eq_refl)) _ _));
    cbn; lia.
Defined.

Lemma handler_first_device_witness :
  subscription_url_to_store cfg_inbound1
    (fixed_panel [vmess_inbound tablet_owner_clients] accepted) rnd1 7
    (Some "alice") None logged_in =
  (Some (Stored_url "https://panel.example.com:2096/sub/s4" false),
   after_listings cfg_inbound1 1 logged_in).
Proof.
  refine (proj1 (handler_first_device_reuses_existing cfg_inbound1
                   (fixed_panel [vmess_inbound tablet_owner_clients] accepted)
                   rnd1 7 (Some "alice") None logged_in
                   "https://panel.example.com:2096/sub/s4"
                   _ eq_refl eq_refl)).
  discriminate.
Defined.

Lemma handler_too_many_devices_witness :
  subscription_url_to_store cfg_inbound1
    (fixed_panel [vmess_inbound alice_phones] accepted) rnd1 7
    (Some "alice") (Some "phone") logged_in =
  (Some Error_creating, after_listings cfg_inbound1 100 logged_in).
Proof.
  apply (handler_too_many_devices_shows_general_error cfg_inbound1
           (fixed_panel [vmess_inbound alice_phones] accepted) rnd1 7
           "alice" "phone" logged_in [vmess_inbound alice_phones] 1
           alice_phones eq_refl eq_refl eq_refl (fun _ => eq_refl) eq_refl
           one_is_not_zero eq_refl eq_refl
           (all_taken_by_check alice_phones "alice" "phone" eq_refl)).
Defined.


(** ** Termination *)

Section Termination.

Variable cfg : Config.
Variable panel : Panel.

(** X27.  Whatever the panel answers, the loop over the device counter
    ends within its 99 iterations, so [create_user] always returns, and
    so does the part of [handle_generate_subscription] that calls it. *)
Theorem create_user_always_returns
    rnd telegram_user_id username device_name s :
  fst (create_user cfg panel rnd telegram_user_id username device_name s)
  <> None /\
  fst (subscription_url_to_store cfg panel rnd telegram_user_id username
         device_name s) <> None.
Proof.
  split; [apply create_user_returns|].
  unfold subscription_url_to_store.
  destruct (if_truthy username) as [u|]; [|discriminate].
  assert (Hc : forall s1,
    fst (let '(result, s2) :=
           create_user cfg panel rnd telegram_user_id username device_name s1 in
         match result with
         | None => (None, s2)
         | Some (Dict_success _ _ _ url _) => (Some (store_url url true), s2)
         | Some (Dict_username_exists _ existing_url) =>
             if PyStr.truthy existing_url
             then (Some (store_url existing_url false), s2)
             else (Some Error_username_exists, s2)
         | Some Dict_username_required =>
             (Some Error_message_of_create_user, s2)
         | Some Dict_too_many_devices => (Some Error_creating, s2)
         | Some ReturnsNone => (Some Error_creating, s2)
         end) <> None).
  { intros s1.
    pose proof (create_user_returns cfg panel rnd telegram_user_id username
                  device_name s1) as H.
    destruct (create_user cfg panel rnd telegram_user_id username device_name s1)
      as [[res|] s2]; cbn [fst] in H; [|contradiction].
    destruct res as [| | |name url|uuid sub_id ib url total_gb];
      try (cbn; discriminate).
    destruct (PyStr.truthy url); cbn; discriminate. }
  destruct (if_truthy device_name) as [d|]; [apply Hc|].
  destruct (get_user_subscription cfg panel telegram_user_id username s)
    as [[url|] s1]; [|apply Hc].
  destruct (PyStr.truthy url); [cbn; discriminate | apply Hc].
Qed.

End Termination.
